(** * chainer.datasets.mnist: the MNIST loader

    A shallow embedding of [chainer/datasets/mnist.py] and the properties
    of its parser, cache gate and normaliser.

    Python objects live in one store ([world]): array buffers on a heap,
    open gzip streams, and the files of the local disk.  Every function
    of the module is a computation in the monad [M], which threads the
    store and carries Python exceptions. *)

From Stdlib Require Import ZArith List Bool Lia.
From Stdlib Require Import Floats.SpecFloat.
From stdpp Require Import base option list strings gmap.

Local Open Scope string_scope.
Local Open Scope list_scope.
Local Open Scope Z_scope.

(** ** Exceptions and results *)

Inductive exn :=
  | KeyError (key : string)
  | ValueError (msg : string)
  | TypeError (msg : string)
  | IndexError (msg : string)
  | RuntimeError (msg : string)
  | IOError (msg : string)
  | StructError (msg : string).

Inductive result (A : Type) :=
  | Ok (a : A)
  | Err (e : exn).
Arguments Ok {A} a.
Arguments Err {A} e.

Definition is_ok {A} (r : result A) : bool :=
  match r with Ok _ => true | Err _ => false end.

(** ** The store *)

(** An array buffer: the flat, row-major data of a contiguous numpy array,
    tagged by its dtype.  Bytes and 32-bit integers are [Z]; float32 cells
    are IEEE binary32 values. *)
Inductive buffer :=
  | BufU8 (bs : list Z)
  | BufI32 (zs : list Z)
  | BufF32 (fs : list spec_float).

Inductive dtype := uint8 | int32 | float32.

(** A numpy array object: a view on a heap buffer.  Two arrays with the
    same [base] share their data. *)
Record ndarray := { base : nat; shape : list Z }.

(** A file on disk.  A gzip file is represented by the byte stream that
    decompressing it yields; an npz archive by its named arrays. *)
Inductive file :=
  | GzFile (content : list Z)
  | NpzFile (arrays : list (string * (list Z * buffer))).

(** An open gzip stream holds the bytes not read yet; a stream over a file
    that is not a gzip archive fails on every read. *)
Inductive stream :=
  | Open (rest : list Z)
  | Broken
  | Closed.

Record world := {
  heap : list buffer;
  streams : list stream;
  fs : gmap string file;
  remote : gmap string file
}.

Definition set_heap (h : list buffer) (w : world) : world :=
  {| heap := h; streams := streams w; fs := fs w; remote := remote w |}.
Definition set_streams (s : list stream) (w : world) : world :=
  {| heap := heap w; streams := s; fs := fs w; remote := remote w |}.
Definition set_fs (f : gmap string file) (w : world) : world :=
  {| heap := heap w; streams := streams w; fs := f; remote := remote w |}.

(** ** The monad of Python computations *)

Definition M (A : Type) : Type := world -> result A * world.

Definition ret {A} (a : A) : M A := fun w => (Ok a, w).
Definition raise {A} (e : exn) : M A := fun w => (Err e, w).
Definition bind {A B} (m : M A) (k : A -> M B) : M B :=
  fun w => match m w with
           | (Ok a, w') => k a w'
           | (Err e, w') => (Err e, w')
           end.
Definition lift {A} (r : result A) : M A := fun w => (r, w).

Declare Scope py_scope.
Delimit Scope py_scope with py.
Notation "x <- m ;; k" := (bind m (fun x => k))
  (at level 100, m at next level, right associativity) : py_scope.
Notation "m ;;; k" := (bind m (fun _ => k))
  (at level 100, right associativity) : py_scope.
Local Open Scope py_scope.

(** [for x in xs: body x] *)
Fixpoint for_ {A} (xs : list A) (body : A -> M unit) : M unit :=
  match xs with
  | [] => ret tt
  | x :: rest => body x ;;; for_ rest body
  end.

(** ** Floating point: binary64 (Python floats) and binary32 (float32) *)

Definition f64_div : spec_float -> spec_float -> spec_float := SFdiv 53 1024.
Definition f32_mul : spec_float -> spec_float -> spec_float := SFmul 24 128.

(** The literal [255.] *)
Definition f64_255 : spec_float := binary_normalize 53 1024 255 0 false.

(** Rounding a binary64 value to binary32 (to nearest, ties to even). *)
Definition f32_of_f64 (x : spec_float) : spec_float :=
  match x with
  | S754_finite s m e => binary_round 24 128 s m e
  | _ => x
  end.

(** Conversion of an integer to binary32. *)
Definition f32_of_Z (z : Z) : spec_float := binary_normalize 24 128 z 0 false.

(** Wrap-around of an integer to a signed 32-bit value. *)
Definition wrap32 (z : Z) : Z := (z + 2^31) mod 2^32 - 2^31.

(** C conversion of a binary32 value to a 32-bit integer, as compiled for
    x86-64: truncation toward zero, and the integer indefinite value
    [-2^31] for NaN, infinities and values out of range. *)
Definition Z_of_f32 (x : spec_float) : Z :=
  match x with
  | S754_zero _ => 0
  | S754_finite s m e =>
      let a := if 0 <=? e then Z.pos m * 2 ^ e else Z.pos m / 2 ^ (- e) in
      let v := if s then - a else a in
      if (- 2^31 <=? v) && (v <? 2^31) then v else - 2^31
  | _ => - 2^31
  end.

(** ** numpy *)

Definition size_of (sh : list Z) : Z := fold_right Z.mul 1 sh.

Definition alloc (b : buffer) : M nat :=
  fun w => (Ok (length (heap w)), set_heap (heap w ++ [b]) w).

Definition load_buffer (l : nat) : M buffer :=
  fun w => match heap w !! l with
           | Some b => (Ok b, w)
           | None => (Err (ValueError "dangling array"), w)
           end.

Definition store_buffer (l : nat) (b : buffer) : M unit :=
  fun w => (Ok tt, set_heap (<[l := b]> (heap w)) w).

(** [a.reshape(d1, ..., dk)] with at most one unknown ([-1]) dimension,
    as numpy resolves it; the result is a view on the same buffer. *)
Definition fix_unknown_dimension (total : Z) (newshape : list Z)
  : result (list Z) :=
  let unknown := List.filter (fun d => d <? 0) newshape in
  let s_known := size_of (List.filter (fun d => 0 <=? d) newshape) in
  match unknown with
  | [] =>
      if total =? s_known then Ok newshape
      else Err (ValueError "cannot reshape array")
  | [_] =>
      if (s_known =? 0) || negb (total mod s_known =? 0)
      then Err (ValueError "cannot reshape array")
      else Ok (map (fun d => if d <? 0 then total / s_known else d) newshape)
  | _ => Err (ValueError "can only specify one unknown dimension")
  end.

Definition reshape (a : ndarray) (newshape : list Z) : M ndarray :=
  sh <- lift (fix_unknown_dimension (size_of (shape a)) newshape) ;;
  ret {| base := base a; shape := sh |}.

(** [a.astype(dt)]: always a fresh buffer holding the converted cells. *)
Definition convert (dt : dtype) (b : buffer) : buffer :=
  match dt, b with
  | uint8, BufU8 bs => BufU8 bs
  | uint8, BufI32 zs => BufU8 (map (fun z => z mod 256) zs)
  | uint8, BufF32 fs => BufU8 (map (fun f => Z_of_f32 f mod 256) fs)
  | int32, BufU8 bs => BufI32 bs
  | int32, BufI32 zs => BufI32 zs
  | int32, BufF32 fs => BufI32 (map Z_of_f32 fs)
  | float32, BufU8 bs => BufF32 (map f32_of_Z bs)
  | float32, BufI32 zs => BufF32 (map f32_of_Z zs)
  | float32, BufF32 fs => BufF32 fs
  end.

Definition astype (a : ndarray) (dt : dtype) : M ndarray :=
  b <- load_buffer (base a) ;;
  l <- alloc (convert dt b) ;;
  ret {| base := l; shape := shape a |}.

(** [a *= k] for a Python float [k]: in place, in the array's own
    precision.  Integer arrays reject the float result. *)
Definition imul (a : ndarray) (k : spec_float) : M unit :=
  b <- load_buffer (base a) ;;
  match b with
  | BufF32 fs =>
      store_buffer (base a) (BufF32 (map (fun v => f32_mul v (f32_of_f64 k)) fs))
  | _ => raise (TypeError "Cannot cast ufunc multiply output from float64")
  end.

(** [numpy.empty(shape, dtype)]: a fresh array.  Its cells are
    unspecified in numpy; they are zero here, and the parser overwrites
    every cell before any is read. *)
Definition zeros (dt : dtype) (n : Z) : buffer :=
  match dt with
  | uint8 => BufU8 (repeat 0 (Z.to_nat n))
  | int32 => BufI32 (repeat 0 (Z.to_nat n))
  | float32 => BufF32 (repeat (S754_zero false) (Z.to_nat n))
  end.

(** Row-major offset of a full index into an array of the given shape;
    [None] when the index has the wrong rank or is out of bounds. *)
Fixpoint flat_index (sh idx : list Z) (acc : Z) : option Z :=
  match sh, idx with
  | [], [] => Some acc
  | d :: sh', i :: idx' =>
      if (0 <=? i) && (i <? d) then flat_index sh' idx' (acc * d + i)
      else None
  | _, _ => None
  end.

(** [a[idx] = v] for an integer [v]. *)
Definition setitem (a : ndarray) (idx : list Z) (v : Z) : M unit :=
  b <- load_buffer (base a) ;;
  match flat_index (shape a) idx 0 with
  | None => raise (IndexError "index is out of bounds")
  | Some k =>
      store_buffer (base a)
        match b with
        | BufU8 bs => BufU8 (<[Z.to_nat k := v mod 256]> bs)
        | BufI32 zs => BufI32 (<[Z.to_nat k := wrap32 v]> zs)
        | BufF32 fs => BufF32 (<[Z.to_nat k := f32_of_Z v]> fs)
        end
  end.

(** ** Python values, [range], [ord] and dictionaries *)

#[local] Unset Elimination Schemes.
Inductive pyval :=
  | PInt (n : Z)
  | PBytes (b : list Z)
  | PTuple (vs : list pyval).
#[local] Set Elimination Schemes.

(** [v == w] *)
Fixpoint py_eqb (v w : pyval) : bool :=
  match v, w with
  | PInt n, PInt m => n =? m
  | PBytes b, PBytes c => bool_decide (b = c)
  | PTuple vs, PTuple ws =>
      (fix all2 (vs ws : list pyval) : bool :=
         match vs, ws with
         | [], [] => true
         | v' :: vs', w' :: ws' => py_eqb v' w' && all2 vs' ws'
         | _, _ => false
         end) vs ws
  | _, _ => false
  end.

(** [range(n)] *)
Definition py_range (n : pyval) : M (list Z) :=
  match n with
  | PInt k => ret (seqZ 0 k)
  | PBytes _ => raise (TypeError "'bytes' object cannot be interpreted as an integer")
  | PTuple _ => raise (TypeError "'tuple' object cannot be interpreted as an integer")
  end.

(** [ord(c)] of a bytes object *)
Definition ord (c : list Z) : M Z :=
  match c with
  | [b] => ret b
  | _ => raise (TypeError "ord() expected a character")
  end.

(** One dimension of a shape argument. *)
Definition as_dim (v : pyval) : result Z :=
  match v with
  | PInt n =>
      if n <? 0 then Err (ValueError "negative dimensions are not allowed")
      else Ok n
  | PBytes _ => Err (TypeError "'bytes' object cannot be interpreted as an integer")
  | PTuple _ => Err (TypeError "'tuple' object cannot be interpreted as an integer")
  end.

Fixpoint as_dims (vs : list pyval) : result (list Z) :=
  match vs with
  | [] => Ok []
  | v :: vs' =>
      match as_dim v with
      | Err e => Err e
      | Ok d => match as_dims vs' with
                | Err e => Err e
                | Ok ds => Ok (d :: ds)
                end
      end
  end.

(** The shape argument of [numpy.empty]: an integer or a sequence of
    integers. *)
Definition as_shape (v : pyval) : result (list Z) :=
  match v with
  | PTuple vs => as_dims vs
  | _ => match as_dim v with Ok d => Ok [d] | Err e => Err e end
  end.

Definition numpy_empty (shape_arg : pyval) (dt : dtype) : M ndarray :=
  sh <- lift (as_shape shape_arg) ;;
  l <- alloc (zeros dt (size_of sh)) ;;
  ret {| base := l; shape := sh |}.

(** A dictionary of named arrays, in insertion order. *)
Fixpoint dict_get (d : list (string * ndarray)) (k : string) : option ndarray :=
  match d with
  | [] => None
  | (k', a) :: d' => if String.eqb k' k then Some a else dict_get d' k
  end.

(** [raw[k]] *)
Definition getitem (raw : list (string * ndarray)) (k : string) : M ndarray :=
  match dict_get raw k with
  | Some a => ret a
  | None => raise (KeyError k)
  end.

(** ** The normaliser *)

Inductive dataset :=
  | Images (images : ndarray)
  | Paired (images labels : ndarray).

(** Modelled from the spec: [chainer.datasets.tuple_dataset.TupleDataset]
    is not among the sources.  It is the paired sequence container of the
    data model: an ordered sequence of (image, label) tuples that is
    index-aligned with the two tensors it is built from. *)
Definition TupleDataset (images labels : ndarray) : M dataset :=
  ret (Paired images labels).

Definition _preprocess_mnist (raw : list (string * ndarray))
    (withlabel : bool) (ndim : Z) (scale : spec_float) : M dataset :=
  images <- getitem raw "x" ;;
  images <- (if ndim =? 2 then reshape images [-1; 28; 28]
             else if ndim =? 3 then reshape images [-1; 1; 28; 28]
             else if negb (ndim =? 1)
                  then raise (ValueError "invalid ndim for MNIST dataset")
             else ret images) ;;
  images <- astype images float32 ;;
  imul images (f64_div scale f64_255) ;;;
  if withlabel then
    y <- getitem raw "y" ;;
    labels <- astype y int32 ;;
    TupleDataset images labels
  else
    ret (Images images).

(** ** [struct]: compiling a format *)

(** The largest [Py_ssize_t]. *)
Definition PY_SSIZE_T_MAX : Z := 2^63 - 1.

Definition is_space (c : Z) : bool := (c =? 32) || ((9 <=? c) && (c <=? 13)).
Definition is_digit (c : Z) : bool := (48 <=? c) && (c <=? 57).

(** Size and alignment of a format code: the native table (LP64) when
    [native], the standard table otherwise. *)
Definition getentry (native : bool) (c : Z) : option (Z * Z) :=
  let among (s : string) :=
    existsb (fun a => c =? Z.of_N (Ascii.N_of_ascii a)) (String.list_ascii_of_string s) in
  if among "xbBcsp?" then Some (1, 1)
  else if among "hHe" then Some (2, 2)
  else if among "iIf" then Some (4, 4)
  else if among "qQd" then Some (8, 8)
  else if among "lL" then Some (if native then (8, 8) else (4, 4))
  else if among "nNP" then (if native then Some (8, 8) else None)
  else None.

(** The item loop of [prepare_s]: [num] is the repeat count read so far,
    [size] the size of the items before it. *)
Fixpoint compile_items (native : bool) (fmt : list Z) (num : option Z)
    (size : Z) : result Z :=
  let too_long := Err (StructError "total struct size too long") in
  let item (c : Z) (n : Z) (rest : list Z) :=
    match getentry native c with
    | None => Err (StructError "bad char in struct format")
    | Some (itemsize, alignment) =>
        let size := if native && (0 <? size)
                    then (size + alignment - 1) / alignment * alignment
                    else size in
        if PY_SSIZE_T_MAX <? size then too_long
        else if (PY_SSIZE_T_MAX - size) / itemsize <? n then too_long
        else compile_items native rest None (size + n * itemsize)
    end in
  match fmt with
  | [] =>
      match num with
      | Some _ => Err (StructError "repeat count given without format specifier")
      | None => Ok size
      end
  | c :: rest =>
      match num with
      | Some n =>
          if is_digit c then
            if PY_SSIZE_T_MAX <? 10 * n + (c - 48) then too_long
            else compile_items native rest (Some (10 * n + (c - 48))) size
          else item c n rest
      | None =>
          if is_space c then compile_items native rest None size
          else if is_digit c then compile_items native rest (Some (c - 48)) size
          else item c 1 rest
      end
  end.

(** [struct.calcsize] of a bytes format, or the [struct.error] that
    compiling it raises. *)
Definition struct_compile (fmt : list Z) : result Z :=
  if existsb (Z.eqb 0) fmt then Err (StructError "embedded null character")
  else
    match fmt with
    | c :: rest =>
        if (c =? 60) || (c =? 62) || (c =? 33) || (c =? 61)
        then compile_items false rest None 0
        else if c =? 64 then compile_items true rest None 0
        else compile_items true fmt None 0
    | [] => Ok 0
    end.

(** [struct.unpack(fmt, buf)] in Python 3, for a bytes object [fmt] and a
    str object [buf].  The format is compiled first; the buffer argument
    must then support the buffer protocol, which a str does not. *)
Definition struct_unpack (fmt : list Z) (buf : string) : result (list pyval) :=
  match struct_compile fmt with
  | Err e => Err e
  | Ok _ => Err (TypeError "a bytes-like object is required, not 'str'")
  end.

(** ** Files *)

(** [gzip.open(path, 'rb')]: a handle on a new stream.  A file that is not
    a gzip archive opens, and fails when it is first read. *)
Definition gzip_open (path : string) : M nat :=
  fun w =>
    match fs w !! path with
    | None => (Err (IOError "No such file or directory"), w)
    | Some f =>
        let s := match f with GzFile c => Open c | NpzFile _ => Broken end in
        (Ok (length (streams w)), set_streams (streams w ++ [s]) w)
    end.

(** [f.read(n)]: up to [n] bytes, fewer at the end of the stream. *)
Definition file_read (f : nat) (n : Z) : M (list Z) :=
  fun w =>
    match streams w !! f with
    | Some (Open rest) =>
        (Ok (take (Z.to_nat n) rest),
         set_streams (<[f := Open (drop (Z.to_nat n) rest)]> (streams w)) w)
    | Some Broken => (Err (IOError "Not a gzipped file"), w)
    | _ => (Err (ValueError "I/O operation on closed file"), w)
    end.

Definition file_close (f : nat) : M unit :=
  fun w => (Ok tt, set_streams (<[f := Closed]> (streams w)) w).

(** [with open_ as f: body f]: the file is closed when the block is left,
    also by an exception. *)
Definition with_ {A} (open_ : M nat) (body : nat -> M A) : M A :=
  f <- open_ ;;
  fun w => let '(r, w') := body f w in (r, snd (file_close f w')).

(** [s.endswith(suffix)] *)
Definition endswith (s suffix : string) : bool :=
  let n := String.length s in
  let k := String.length suffix in
  (k <=? n)%nat && String.eqb (String.substring (n - k) k s) suffix.

(** [numpy.savez_compressed(path, **arrays)]: the archive is written to
    [path], with [.npz] appended when [path] does not end with it. *)
Definition npz_name (path : string) : string :=
  if endswith path ".npz" then path else path +:+ ".npz".

Fixpoint snapshot (arrays : list (string * ndarray))
  : M (list (string * (list Z * buffer))) :=
  match arrays with
  | [] => ret []
  | (k, a) :: rest =>
      b <- load_buffer (base a) ;;
      saved <- snapshot rest ;;
      ret ((k, (shape a, b)) :: saved)
  end.

Definition savez_compressed (path : string) (arrays : list (string * ndarray))
  : M unit :=
  saved <- snapshot arrays ;;
  fun w => (Ok tt, set_fs (<[npz_name path := NpzFile saved]> (fs w)) w).

(** The arrays of an archive, read into fresh buffers in the order of the
    archive. *)
Fixpoint restore (saved : list (string * (list Z * buffer)))
  : M (list (string * ndarray)) :=
  match saved with
  | [] => ret []
  | (k, (sh, b)) :: rest =>
      l <- alloc b ;;
      arrays <- restore rest ;;
      ret ((k, {| base := l; shape := sh |}) :: arrays)
  end.

(** [numpy.load(path)].  On an [.npz] archive NumPy returns a lazy
    [NpzFile] object, which reads a member into a fresh array when it is
    indexed.  The model reads every member when the archive is opened:
    indexing yields the same shapes and cells either way, and the two
    differ only in which buffers are allocated, and when.  What is proved
    of the callers of [numpy_load] is stated on results, array values,
    files and streams, and of the heap only that earlier buffers are
    kept. *)
Definition numpy_load (path : string) : M (list (string * ndarray)) :=
  fun w =>
    match fs w !! path with
    | Some (NpzFile saved) => restore saved w
    | Some (GzFile _) => (Err (IOError "Failed to interpret file as a pickle"), w)
    | None => (Err (IOError "No such file or directory"), w)
    end.

(** [os.path.join(root, name)] *)
Definition path_join (root name : string) : string :=
  if String.prefix "/" name then name
  else if String.eqb root "" || endswith root "/" then root +:+ name
  else root +:+ "/" +:+ name.

(** ** [chainer.dataset.download] *)

(** Modelled from the spec: [download.get_dataset_directory] is not among
    the sources.  It resolves a namespace to its directory under the
    process-wide cache root. *)
Definition get_dataset_directory (namespace : string) : M string :=
  ret (path_join "_dataset" namespace).

(** The local path of a download: the same URL always maps to the same
    path. *)
Definition download_path (url : string) : string :=
  path_join "_downloads" url.

(** Modelled from the spec: [download.cached_download] is not among the
    sources.  It returns the local path of the URL; the file is fetched
    when it is absent from the download cache, and a network failure is a
    fatal I/O error. *)
Definition cached_download (url : string) : M string :=
  fun w =>
    match fs w !! download_path url with
    | Some _ => (Ok (download_path url), w)
    | None =>
        match remote w !! url with
        | Some f => (Ok (download_path url),
                     set_fs (<[download_path url := f]> (fs w)) w)
        | None => (Err (IOError "download failed"), w)
        end
    end.

(** Modelled from the spec: [download.cached_create_file] is not among the
    sources.  If a file exists at [path] the loader is called on it;
    otherwise the creator is called, which persists its result at [path]
    and returns it. *)
Definition cached_create_file {A} (path : string)
    (creator loader : string -> M A) : M A :=
  fun w =>
    match fs w !! path with
    | Some _ => loader path w
    | None => creator path w
    end.

(** ** The loader *)

(** The [struct] module the loader is run with. *)
Class StructModule := unpack : list Z -> string -> result (list pyval).

Section Loader.
Context `{StructModule}.

Definition _make_npz (path : string) (urls : list string)
  : M (list (string * ndarray)) :=
  match urls with
  | [x_url; y_url] =>
      x_path <- cached_download x_url ;;
      y_path <- cached_download y_url ;;
      xy <- with_ (gzip_open x_path) (fun fx =>
            with_ (gzip_open y_path) (fun fy =>
              file_read fx 4 ;;;
              file_read fy 4 ;;;
              cx <- file_read fx 4 ;;
              N <- lift (unpack cx ">i") ;;
              cy <- file_read fy 4 ;;
              N' <- lift (unpack cy ">i") ;;
              if negb (py_eqb (PTuple N) (PTuple N')) then
                raise (RuntimeError "wrong pair of MNIST images and labels")
              else
              file_read fx 8 ;;;
              x <- numpy_empty (PTuple [PTuple N; PInt 784]) uint8 ;;
              y <- numpy_empty (PTuple N) uint8 ;;
              rows <- py_range (PTuple N) ;;
              for_ rows (fun i =>
                c <- file_read fy 1 ;;
                v <- ord c ;;
                setitem y [i] v ;;;
                cols <- py_range (PInt 784) ;;
                for_ cols (fun j =>
                  c <- file_read fx 1 ;;
                  v <- ord c ;;
                  setitem x [i; j] v)) ;;;
              ret (x, y))) ;;
      let '(x, y) := xy in
      savez_compressed path [("x", x); ("y", y)] ;;;
      ret [("x", x); ("y", y)]
  | _ => raise (ValueError "wrong number of values to unpack")
  end.

Definition _retrieve_mnist (name : string) (urls : list string)
  : M (list (string * ndarray)) :=
  root <- get_dataset_directory "pfnet/chainer/mnist" ;;
  let path := path_join root name in
  cached_create_file path (fun path => _make_npz path urls) numpy_load.

Definition _retrieve_mnist_training : M (list (string * ndarray)) :=
  let urls := ["http://yann.lecun.com/exdb/mnist/train-images-idx3-ubyte.gz";
               "http://yann.lecun.com/exdb/mnist/train-labels-idx1-ubyte.gz"] in
  _retrieve_mnist "train.npz" urls.

Definition _retrieve_mnist_test : M (list (string * ndarray)) :=
  let urls := ["http://yann.lecun.com/exdb/mnist/t10k-images-idx3-ubyte.gz";
               "http://yann.lecun.com/exdb/mnist/t10k-labels-idx1-ubyte.gz"] in
  _retrieve_mnist "test.npz" urls.

Definition get_mnist (withlabel : bool) (ndim : Z) (scale : spec_float)
  : M (dataset * dataset) :=
  train_raw <- _retrieve_mnist_training ;;
  train <- _preprocess_mnist train_raw withlabel ndim scale ;;
  test_raw <- _retrieve_mnist_test ;;
  test <- _preprocess_mnist test_raw withlabel ndim scale ;;
  ret (train, test).
End Loader.

(** The loader under Python 3. *)
#[global] Instance python3_struct : StructModule := struct_unpack.

(** ** Vocabulary of the specification *)

(** The cache path of a split. *)
Definition mnist_path (name : string) : string :=
  path_join (path_join "_dataset" "pfnet/chainer/mnist") name.

(** [raw] is a raw split of [N] records in the store [w]: a byte array
    [x] of shape [(N, 784)] holding [xs] and a byte array [y] of shape
    [(N,)] holding [ys]. *)
Definition raw_split (w : world) (raw : list (string * ndarray)) (N : Z)
    (xs ys : list Z) : Prop :=
  exists bx by_,
    dict_get raw "x" = Some {| base := bx; shape := [N; 784] |} /\
    dict_get raw "y" = Some {| base := by_; shape := [N] |} /\
    heap w !! bx = Some (BufU8 xs) /\
    heap w !! by_ = Some (BufU8 ys) /\
    Z.of_nat (length xs) = N * 784 /\
    Z.of_nat (length ys) = N.

(** A cache entry holding a raw split of [N] records. *)
Definition cached_split (w : world) (name : string) (N : Z) (xs ys : list Z)
  : Prop :=
  fs w !! mnist_path name
    = Some (NpzFile [("x", ([N; 784], BufU8 xs)); ("y", ([N], BufU8 ys))]) /\
  Z.of_nat (length xs) = N * 784 /\
  Z.of_nat (length ys) = N.

Definition images_of (d : dataset) : ndarray :=
  match d with Images a => a | Paired a _ => a end.

Definition image_shape (ndim N : Z) : list Z :=
  if ndim =? 2 then [N; 28; 28]
  else if ndim =? 3 then [N; 1; 28; 28]
  else [N; 784].

(** The store [w'] differs from [w] only by buffers allocated since. *)
Definition extends (w w' : world) : Prop :=
  fs w' = fs w /\ streams w' = streams w /\ remote w' = remote w /\
  heap w `prefix_of` heap w'.

(** The float32 cell the normaliser computes for the byte [v]. *)
Definition scale_pixel (scale : spec_float) (v : Z) : spec_float :=
  f32_mul (f32_of_Z v) (f32_of_f64 (f64_div scale f64_255)).

(** The exact widening of a binary32 value to binary64, as a comparison
    of a float32 cell with a Python float performs it. *)
Definition f64_of_f32 (x : spec_float) : spec_float :=
  match x with
  | S754_finite s m e => binary_round 53 1024 s m e
  | _ => x
  end.

(** The Python floats [1.0], [0.1], [1023.0] and [511.69219970703125];
    all but [0.1] are float32 values as well. *)
Definition f64_one : spec_float := binary_normalize 53 1024 1 0 false.
Definition f64_tenth : spec_float := S754_finite false 7205759403792794 (-56).
Definition f64_1023 : spec_float := binary_normalize 53 1024 1023 0 false.
Definition f64_fine : spec_float :=
  binary_normalize 53 1024 16767130 (-15) false.

Definition is_finite (x : spec_float) : bool :=
  match x with
  | S754_zero _ | S754_finite _ _ _ => true
  | _ => false
  end.

(** [x] is a zero, a finite number or an infinity of sign [s]. *)
Definition has_sign (s : bool) (x : spec_float) : Prop :=
  match x with
  | S754_zero s' | S754_finite s' _ _ | S754_infinity s' => s' = s
  | S754_nan => False
  end.

(** [m] raises in every store. *)
Definition fails {A} (m : M A) : Prop := forall w, is_ok (fst (m w)) = false.

(** [m] leaves the files alone. *)
Definition keeps_fs {A} (m : M A) : Prop := forall w, fs (snd (m w)) = fs w.

(** The consistency error of the parser. *)
Definition is_consistency_error {A} (r : result A) : bool :=
  match r with
  | Err (RuntimeError _) => true
  | _ => false
  end.

(** [m] never raises the consistency error. *)
Definition quiet {A} (m : M A) : Prop :=
  forall w, is_consistency_error (fst (m w)) = false.

(** The errors of [struct.unpack] under Python 3. *)
Definition is_struct_failure (e : exn) : bool :=
  match e with
  | StructError _ | TypeError _ => true
  | _ => false
  end.

(** The IDX format of the two streams of a split: magic number, record
    count, for images the two dimensions, then the payload. *)
Definition be32 (n : Z) : list Z :=
  [n / 2^24 mod 256; n / 2^16 mod 256; n / 2^8 mod 256; n mod 256].
Definition idx3_images (n : Z) (pixels : list Z) : list Z :=
  be32 2051 ++ be32 n ++ be32 28 ++ be32 28 ++ pixels.
Definition idx1_labels (n : Z) (labels : list Z) : list Z :=
  be32 2049 ++ be32 n ++ labels.

Definition train_images_url : string :=
  "http://yann.lecun.com/exdb/mnist/train-images-idx3-ubyte.gz".
Definition train_labels_url : string :=
  "http://yann.lecun.com/exdb/mnist/train-labels-idx1-ubyte.gz".

(** A machine with nothing on disk, and a network that serves the
    training pair. *)
Definition fresh_world (images labels : list Z) : world :=
  {| heap := []; streams := []; fs := ∅;
     remote := <[train_images_url := GzFile images]>
               (<[train_labels_url := GzFile labels]> ∅) |}.

(** One record: an image of sevens with the label 3. *)
Definition one_record_world : world :=
  fresh_world (idx3_images 1 (repeat 7 784)) (idx1_labels 1 [3]).

(** The image stream declares 100 records, the label stream 99. *)
Definition mismatched_world : world :=
  fresh_world (idx3_images 100 (repeat 7 (Z.to_nat 78400)))
              (idx1_labels 99 (repeat 3 99)).

(** A raw split of one record in memory: a white pixel followed by black
    ones, with the label 5. *)
Definition sample_pixels : list Z := 255 :: repeat 0 783.
Definition sample_world : world :=
  {| heap := [BufU8 sample_pixels; BufU8 [5]];
     streams := []; fs := ∅; remote := ∅ |}.
Definition sample_raw : list (string * ndarray) :=
  [("x", {| base := 0; shape := [1; 784] |});
   ("y", {| base := 1; shape := [1] |})].

(** The float32 cell that the normaliser leaves at index [i] for the
    sample split, under the given scale. *)
Definition normalized_cell (scale : spec_float) (i : nat) : option spec_float :=
  match _preprocess_mnist sample_raw false 1 scale sample_world with
  | (Ok d, w') =>
      match heap w' !! base (images_of d) with
      | Some (BufF32 cells) => cells !! i
      | _ => None
      end
  | (Err _, _) => None
  end.

(** A machine on which both splits are cached. *)
Definition cached_world : world :=
  {| heap := []; streams := [];
     fs := <[mnist_path "train.npz" :=
               NpzFile [("x", ([1; 784], BufU8 sample_pixels));
                        ("y", ([1], BufU8 [5]))]]>
           (<[mnist_path "test.npz" :=
               NpzFile [("x", ([1; 784], BufU8 (repeat 9 784)));
                        ("y", ([1], BufU8 [2]))]]> ∅);
     remote := ∅ |}.

(** ** Vocabulary of the further properties *)

(** The shape the normaliser gives to an image array of shape [sh]. *)
Definition new_shape (ndim : Z) (sh : list Z) : result (list Z) :=
  if ndim =? 2 then fix_unknown_dimension (size_of sh) [-1; 28; 28]
  else if ndim =? 3 then fix_unknown_dimension (size_of sh) [-1; 1; 28; 28]
  else if negb (ndim =? 1) then Err (ValueError "invalid ndim for MNIST dataset")
  else Ok sh.

(** The value of an array in a store: its shape and its cells. *)
Definition array_value (w : world) (a : ndarray) : option (list Z * buffer) :=
  match heap w !! base a with
  | Some b => Some (shape a, b)
  | None => None
  end.

(** The value of a dataset: its images and, when paired, its labels. *)
Definition dataset_value (w : world) (d : dataset)
  : option ((list Z * buffer) * option (list Z * buffer)) :=
  match d with
  | Images a =>
      match array_value w a with
      | Some v => Some (v, None)
      | None => None
      end
  | Paired a l =>
      match array_value w a, array_value w l with
      | Some v, Some u => Some (v, Some u)
      | _, _ => None
      end
  end.

(** What [get_mnist] is to return for a split whose raw pixels are [xs]
    and raw labels [ys]. *)
Definition normalized (withlabel : bool) (ndim : Z) (scale : spec_float)
    (N : Z) (xs ys : list Z)
  : (list Z * buffer) * option (list Z * buffer) :=
  ((image_shape ndim N, BufF32 (map (scale_pixel scale) xs)),
   if withlabel then Some ([N], BufI32 ys) else None).

(** The float32 cells the normaliser computes from the cells of [x]. *)
Definition scale_cells (scale : spec_float) (cells : list spec_float)
  : list spec_float :=
  map (fun v => f32_mul v (f32_of_f64 (f64_div scale f64_255))) cells.



(** A machine on which the training split alone is cached, with nothing
    to download. *)
Definition train_only_world : world :=
  {| heap := []; streams := [];
     fs := <[mnist_path "train.npz" :=
               NpzFile [("x", ([1; 784], BufU8 sample_pixels));
                        ("y", ([1], BufU8 [5]))]]> ∅;
     remote := ∅ |}.

(** Dictionaries that are not raw splits, over the buffers of the sample
    store: one without labels, one whose images are a single 28 x 28
    array, one whose images are not a multiple of 784 cells, and one
    without images. *)
Definition unlabelled_raw : list (string * ndarray) :=
  [("x", {| base := 0; shape := [1; 784] |})].
Definition square_raw : list (string * ndarray) :=
  [("x", {| base := 0; shape := [28; 28] |})].
Definition ragged_raw : list (string * ndarray) :=
  [("x", {| base := 1; shape := [1] |})].
Definition imageless_raw : list (string * ndarray) :=
  [("y", {| base := 1; shape := [1] |})].

(** * Properties *)

(** ** Running computations *)

Lemma bind_run {A B} (m : M A) (k : A -> M B) w :
  bind m k w =
    match m w with
    | (Ok a, w') => k a w'
    | (Err e, w') => (Err e, w')
    end.
Proof. reflexivity. Qed.

Lemma bind_ok {A B} (m : M A) (k : A -> M B) w a w' :
  m w = (Ok a, w') -> bind m k w = k a w'.
Proof. intros E. unfold bind. rewrite E. reflexivity. Qed.

Lemma fails_raise {A} e : fails (@raise A e).
Proof. intros w. reflexivity. Qed.

Lemma fails_bind_l {A B} (m : M A) (k : A -> M B) : fails m -> fails (bind m k).
Proof.
  intros Hm w. unfold bind. specialize (Hm w).
  destruct (m w) as [[a|e] w']; simpl in *; [discriminate | reflexivity].
Qed.

Lemma fails_bind_r {A B} (m : M A) (k : A -> M B) :
  (forall a, fails (k a)) -> fails (bind m k).
Proof.
  intros Hk w. unfold bind.
  destruct (m w) as [[a|e] w']; simpl; [apply Hk | reflexivity].
Qed.

Lemma fails_with {A} (open_ : M nat) (body : nat -> M A) :
  (forall f, fails (body f)) -> fails (with_ open_ body).
Proof.
  intros Hb. unfold with_. apply fails_bind_r. intros f w.
  specialize (Hb f w). destruct (body f w) as [r w']. exact Hb.
Qed.

Lemma fails_snd {A B} (m : M A) (k : A -> M B) w :
  fails m -> snd (bind m k w) = snd (m w).
Proof.
  intros Hm. unfold bind. specialize (Hm w).
  destruct (m w) as [[a|e] w']; simpl in *; [discriminate | reflexivity].
Qed.

(** No array has a tuple as a dimension. *)
Lemma fails_numpy_empty_nested vs rest dt :
  fails (numpy_empty (PTuple (PTuple vs :: rest)) dt).
Proof. intros w. reflexivity. Qed.

(** ** Computations that leave the files alone *)

Lemma keeps_fs_ret {A} (a : A) : keeps_fs (ret a).
Proof. intros w. reflexivity. Qed.

Lemma keeps_fs_raise {A} e : keeps_fs (@raise A e).
Proof. intros w. reflexivity. Qed.

Lemma keeps_fs_lift {A} (r : result A) : keeps_fs (lift r).
Proof. intros w. reflexivity. Qed.

Lemma keeps_fs_bind {A B} (m : M A) (k : A -> M B) :
  keeps_fs m -> (forall a, keeps_fs (k a)) -> keeps_fs (bind m k).
Proof.
  intros Hm Hk w. unfold bind. specialize (Hm w).
  destruct (m w) as [[a|e] w']; cbn in *; [rewrite Hk|]; exact Hm.
Qed.

Lemma keeps_fs_with {A} (open_ : M nat) (body : nat -> M A) :
  keeps_fs open_ -> (forall f, keeps_fs (body f)) -> keeps_fs (with_ open_ body).
Proof.
  intros Ho Hb. unfold with_. apply keeps_fs_bind; [exact Ho|].
  intros f w. specialize (Hb f w). destruct (body f w) as [r w']. exact Hb.
Qed.

Lemma keeps_fs_for {A} (xs : list A) (body : A -> M unit) :
  (forall x, keeps_fs (body x)) -> keeps_fs (for_ xs body).
Proof.
  intros Hb. induction xs as [|x xs IH]; cbn [for_].
  - apply keeps_fs_ret.
  - apply keeps_fs_bind; auto.
Qed.

Lemma keeps_fs_gzip_open path : keeps_fs (gzip_open path).
Proof. intros w. unfold gzip_open. destruct (fs w !! path); reflexivity. Qed.

Lemma keeps_fs_file_read f n : keeps_fs (file_read f n).
Proof.
  intros w. unfold file_read. destruct (streams w !! f) as [[]|]; reflexivity.
Qed.

Lemma keeps_fs_load_buffer l : keeps_fs (load_buffer l).
Proof. intros w. unfold load_buffer. destruct (heap w !! l); reflexivity. Qed.

Lemma keeps_fs_numpy_empty v dt : keeps_fs (numpy_empty v dt).
Proof.
  unfold numpy_empty. apply keeps_fs_bind; [apply keeps_fs_lift|].
  intros sh. apply keeps_fs_bind; [|intros; apply keeps_fs_ret].
  intros w. reflexivity.
Qed.

Lemma keeps_fs_py_range v : keeps_fs (py_range v).
Proof. destruct v; intros w; reflexivity. Qed.

Lemma keeps_fs_ord c : keeps_fs (ord c).
Proof. destruct c as [|? [|? ?]]; intros w; reflexivity. Qed.

Lemma keeps_fs_setitem a idx v : keeps_fs (setitem a idx v).
Proof.
  unfold setitem. apply keeps_fs_bind; [apply keeps_fs_load_buffer|].
  intros b. destruct (flat_index _ _ _); [|apply keeps_fs_raise].
  intros w. reflexivity.
Qed.

Create HintDb keeps.
#[local] Hint Resolve keeps_fs_ret keeps_fs_raise keeps_fs_lift
  keeps_fs_gzip_open keeps_fs_file_read keeps_fs_numpy_empty keeps_fs_py_range
  keeps_fs_ord keeps_fs_setitem : keeps.

Ltac keeps_fs_tac :=
  repeat first
    [ solve [auto with keeps]
    | apply keeps_fs_with; [|intro]
    | apply keeps_fs_for; intro
    | apply keeps_fs_bind; [|intro]
    | match goal with |- keeps_fs (if ?b then _ else _) => destruct b end ].

(** ** The parser *)

Section Parser.
Context `{StructModule}.

(** The body of the [with] block never completes: whatever
    [struct.unpack] yields for its swapped arguments, the result is a
    tuple, and the image array cannot be allocated with it. *)
Lemma parse_block_raises fx fy :
  fails (file_read fx 4 ;;;
         file_read fy 4 ;;;
         cx <- file_read fx 4 ;;
         N <- lift (unpack cx ">i") ;;
         cy <- file_read fy 4 ;;
         N' <- lift (unpack cy ">i") ;;
         if negb (py_eqb (PTuple N) (PTuple N')) then
           raise (RuntimeError "wrong pair of MNIST images and labels")
         else
         file_read fx 8 ;;;
         x <- numpy_empty (PTuple [PTuple N; PInt 784]) uint8 ;;
         y <- numpy_empty (PTuple N) uint8 ;;
         rows <- py_range (PTuple N) ;;
         for_ rows (fun i =>
           c <- file_read fy 1 ;;
           v <- ord c ;;
           setitem y [i] v ;;;
           cols <- py_range (PInt 784) ;;
           for_ cols (fun j =>
             c <- file_read fx 1 ;;
             v <- ord c ;;
             setitem x [i; j] v)) ;;;
         ret (x, y)).
Proof.
  do 6 (apply fails_bind_r; intros ?).
  destruct (negb _); [apply fails_raise|].
  apply fails_bind_r; intros _.
  apply fails_bind_l, fails_numpy_empty_nested.
Qed.

(** The parser never returns. *)
Lemma make_npz_raises path urls : fails (_make_npz path urls).
Proof.
  unfold _make_npz.
  destruct urls as [|x_url [|y_url [|? ?]]]; try apply fails_raise.
  do 2 (apply fails_bind_r; intros ?).
  apply fails_bind_l.
  do 2 (apply fails_with; intros ?).
  apply parse_block_raises.
Qed.

(** The only files a run of the parser creates are the downloads. *)
Lemma make_npz_fs path x_url y_url w :
  fs (snd (_make_npz path [x_url; y_url] w)) =
    match cached_download x_url w with
    | (Ok _, w1) => fs (snd (cached_download y_url w1))
    | (Err _, w1) => fs w1
    end.
Proof.
  unfold _make_npz. rewrite bind_run.
  destruct (cached_download x_url w) as [[x_path|e] w1]; [|reflexivity].
  rewrite bind_run.
  destruct (cached_download y_url w1) as [[y_path|e] w2]; [|reflexivity].
  cbn [snd]. rewrite fails_snd.
  - match goal with |- fs (snd (?m w2)) = _ =>
      assert (Hk : keeps_fs m); [keeps_fs_tac | apply Hk] end.
  - do 2 (apply fails_with; intros ?). apply parse_block_raises.
Qed.

Lemma cached_download_fs url w p :
  download_path url <> p ->
  fs (snd (cached_download url w)) !! p = fs w !! p.
Proof.
  intros Hp. unfold cached_download.
  destruct (fs w !! download_path url); [reflexivity|].
  destruct (remote w !! url); [|reflexivity].
  cbn. apply lookup_insert_ne. exact Hp.
Qed.

Lemma make_npz_fs_other path x_url y_url w p :
  download_path x_url <> p -> download_path y_url <> p ->
  fs (snd (_make_npz path [x_url; y_url] w)) !! p = fs w !! p.
Proof.
  intros Hx Hy. rewrite make_npz_fs.
  pose proof (cached_download_fs x_url w p Hx) as H1.
  destruct (cached_download x_url w) as [[x_path|e] w1]; cbn [snd] in H1;
    [|exact H1].
  rewrite cached_download_fs by exact Hy. exact H1.
Qed.

(** On a miss the cache gate runs the parser. *)
Lemma retrieve_miss name urls w :
  fs w !! mnist_path name = None ->
  _retrieve_mnist name urls w = _make_npz (mnist_path name) urls w.
Proof.
  intros Hmiss. unfold _retrieve_mnist, get_dataset_directory, ret at 1.
  cbn [bind]. unfold cached_create_file. fold (mnist_path name).
  rewrite Hmiss. reflexivity.
Qed.

(** On a hit the cache gate loads the archive, whatever the creator is. *)
Lemma cached_create_file_hit {A} path (creator loader : string -> M A) w f :
  fs w !! path = Some f ->
  cached_create_file path creator loader w = loader path w.
Proof. intros Hf. unfold cached_create_file. rewrite Hf. reflexivity. Qed.

End Parser.

(** ** The parser under Python 3 *)

Lemma quiet_ret {A} (a : A) : quiet (ret a).
Proof. intros w. reflexivity. Qed.

Lemma quiet_bind {A B} (m : M A) (k : A -> M B) :
  quiet m -> (forall a, quiet (k a)) -> quiet (bind m k).
Proof.
  intros Hm Hk w. unfold bind. specialize (Hm w).
  destruct (m w) as [[a|e] w']; cbn in *; [apply Hk | exact Hm].
Qed.

Lemma quiet_bind_fails {A B} (m : M A) (k : A -> M B) :
  quiet m -> fails m -> quiet (bind m k).
Proof.
  intros Hm Hf w. unfold bind. specialize (Hm w). specialize (Hf w).
  destruct (m w) as [[a|e] w']; cbn in *; [discriminate | exact Hm].
Qed.

Lemma quiet_with {A} (open_ : M nat) (body : nat -> M A) :
  quiet open_ -> (forall f, quiet (body f)) -> quiet (with_ open_ body).
Proof.
  intros Ho Hb. unfold with_. apply quiet_bind; [exact Ho|].
  intros f w. specialize (Hb f w). destruct (body f w) as [r w']. exact Hb.
Qed.

Lemma quiet_cached_download url : quiet (cached_download url).
Proof.
  intros w. unfold cached_download.
  destruct (fs w !! _); [reflexivity|]. destruct (remote w !! _); reflexivity.
Qed.

Lemma quiet_gzip_open path : quiet (gzip_open path).
Proof. intros w. unfold gzip_open. destruct (fs w !! path); reflexivity. Qed.

Lemma quiet_file_read f n : quiet (file_read f n).
Proof.
  intros w. unfold file_read. destruct (streams w !! f) as [[]|]; reflexivity.
Qed.

Lemma compile_items_error native fmt :
  forall num size e,
    compile_items native fmt num size = Err e -> is_struct_failure e = true.
Proof.
  induction fmt as [|c rest IH]; intros num size e; cbn [compile_items];
    cbv zeta.
  - destruct num; [intros [= <-]; reflexivity | discriminate].
  - assert (Hitem : forall n,
      match getentry native c with
      | Some (itemsize, alignment) =>
          let size0 := if native && (0 <? size)
                       then (size + alignment - 1) / alignment * alignment
                       else size in
          if PY_SSIZE_T_MAX <? size0
          then Err (StructError "total struct size too long")
          else if (PY_SSIZE_T_MAX - size0) / itemsize <? n
               then Err (StructError "total struct size too long")
               else compile_items native rest None (size0 + n * itemsize)
      | None => Err (StructError "bad char in struct format")
      end = Err e -> is_struct_failure e = true).
    { intros n. destruct (getentry native c) as [[itemsize alignment]|];
        [|intros [= <-]; reflexivity].
      cbv zeta. destruct (_ <? _); [intros [= <-]; reflexivity|].
      destruct (_ <? _); [intros [= <-]; reflexivity|]. apply IH. }
    destruct num as [n|].
    + destruct (is_digit c); [|apply Hitem].
      destruct (PY_SSIZE_T_MAX <? 10 * n + (c - 48));
        [intros [= <-]; reflexivity | apply IH].
    + destruct (is_space c); [apply IH|].
      destruct (is_digit c); [apply IH | apply Hitem].
Qed.

Lemma struct_unpack_raises fmt buf :
  exists e, struct_unpack fmt buf = Err e /\ is_struct_failure e = true.
Proof.
  unfold struct_unpack. destruct (struct_compile fmt) as [n|e] eqn:E.
  - eexists. split; reflexivity.
  - exists e. split; [reflexivity|]. revert E. unfold struct_compile.
    destruct (existsb _ _); [intros [= <-]; reflexivity|].
    destruct fmt as [|c rest]; [discriminate|].
    destruct (_ || _); [apply compile_items_error|].
    destruct (c =? 64); apply compile_items_error.
Qed.

Lemma fails_struct_unpack fmt buf : fails (lift (struct_unpack fmt buf)).
Proof.
  intros w. destruct (struct_unpack_raises fmt buf) as (e & -> & _).
  reflexivity.
Qed.

Lemma quiet_struct_unpack fmt buf : quiet (lift (struct_unpack fmt buf)).
Proof.
  intros w. destruct (struct_unpack_raises fmt buf) as (e & -> & He).
  destruct e; try discriminate; reflexivity.
Qed.

(** Under Python 3 the comparison of the two counts is never reached,
    so the parser never raises its consistency error. *)
Lemma make_npz_quiet path urls :
  quiet (_make_npz (H := python3_struct) path urls).
Proof.
  unfold _make_npz.
  destruct urls as [|x_url [|y_url [|? ?]]]; try (intros w; reflexivity).
  do 2 (apply quiet_bind; [apply quiet_cached_download|]; intros ?).
  apply quiet_bind_fails.
  - do 2 (apply quiet_with; [apply quiet_gzip_open|]; intros ?).
    do 3 (apply quiet_bind; [apply quiet_file_read|]; intros ?).
    apply quiet_bind_fails;
      [apply quiet_struct_unpack | apply fails_struct_unpack].
  - do 2 (apply fails_with; intros ?). apply parse_block_raises.
Qed.

(** ** The normaliser *)

Lemma reshape_images a N (newshape : list Z) w :
  shape a = [N; 784] -> 0 <= N ->
  newshape = [-1; 28; 28] \/ newshape = [-1; 1; 28; 28] ->
  reshape a newshape w =
    (Ok {| base := base a; shape := N :: tl newshape |}, w).
Proof.
  intros Hs HN Hn. unfold reshape, lift, bind, fix_unknown_dimension.
  rewrite Hs.
  assert (Ht : size_of [N; 784] = N * 784) by (cbn; lia).
  rewrite Ht.
  destruct Hn as [-> | ->];
    cbn [List.filter Z.ltb Z.leb Z.compare size_of fold_right];
    change (28 * (28 * 1)) with 784; change (1 * (28 * (28 * 1))) with 784;
    rewrite Z.mod_mul by lia; rewrite Z.div_mul by lia; reflexivity.
Qed.

Lemma reshape_pure a newshape w : snd (reshape a newshape w) = w.
Proof.
  unfold reshape, bind, lift.
  destruct (fix_unknown_dimension _ _); reflexivity.
Qed.

Lemma astype_run a dt b w :
  heap w !! base a = Some b ->
  astype a dt w =
    (Ok {| base := length (heap w); shape := shape a |},
     set_heap (heap w ++ [convert dt b]) w).
Proof.
  intros Hb. unfold astype, bind, load_buffer, alloc. rewrite Hb. reflexivity.
Qed.

Lemma astype_dangling a dt w :
  heap w !! base a = None ->
  astype a dt w = (Err (ValueError "dangling array"), w).
Proof.
  intros Hb. unfold astype, bind, load_buffer. rewrite Hb. reflexivity.
Qed.

Lemma imul_run a cells k w :
  heap w !! base a = Some (BufF32 cells) ->
  imul a k w =
    (Ok tt,
     set_heap (<[base a := BufF32 (map (fun v => f32_mul v (f32_of_f64 k)) cells)]>
                 (heap w)) w).
Proof.
  intros Hb. unfold imul, bind, load_buffer, store_buffer. rewrite Hb.
  reflexivity.
Qed.

Lemma convert_float32 b : exists cells, convert float32 b = BufF32 cells.
Proof. destruct b; eexists; reflexivity. Qed.

Lemma insert_app_last {A} (l : list A) (x y : A) :
  <[length l := y]> (l ++ [x]) = l ++ [y].
Proof.
  rewrite insert_app_r_alt by lia. rewrite Nat.sub_diag. reflexivity.
Qed.

(** What the normaliser computes on a raw split: a fresh float32 buffer
    with the scaled pixels, then (with labels) a fresh int32 buffer. *)
Lemma preprocess_run w raw N xs ys withlabel ndim scale :
  raw_split w raw N xs ys ->
  ndim = 1 \/ ndim = 2 \/ ndim = 3 ->
  _preprocess_mnist raw withlabel ndim scale w =
    (Ok (if withlabel
         then Paired {| base := length (heap w); shape := image_shape ndim N |}
                     {| base := S (length (heap w)); shape := [N] |}
         else Images {| base := length (heap w); shape := image_shape ndim N |}),
     set_heap (heap w ++ BufF32 (map (scale_pixel scale) xs)
                      :: (if withlabel then [BufI32 ys] else [])) w).
Proof.
  intros (bx & by_ & Hx & Hy & Hbx & Hby & Hlx & Hly) Hnd.
  assert (HN : 0 <= N) by lia.
  unfold _preprocess_mnist, getitem. rewrite Hx, Hy.
  unfold ret at 1. cbn [bind].
  set (ximg := {| base := bx; shape := [N; 784] |}).
  assert (Hre : exists img, base img = bx /\ shape img = image_shape ndim N /\
     (if ndim =? 2 then reshape ximg [-1; 28; 28]
      else if ndim =? 3 then reshape ximg [-1; 1; 28; 28]
      else if negb (ndim =? 1)
           then raise (ValueError "invalid ndim for MNIST dataset")
      else ret ximg) w = (Ok img, w)).
  { destruct Hnd as [-> | [-> | ->]]; cbn [Z.eqb Pos.eqb negb].
    - exists ximg. repeat split.
    - exists {| base := bx; shape := [N; 28; 28] |}.
      rewrite (reshape_images ximg N ([-1; 28; 28])) by (auto; reflexivity).
      repeat split.
    - exists {| base := bx; shape := [N; 1; 28; 28] |}.
      rewrite (reshape_images ximg N ([-1; 1; 28; 28])) by (auto; reflexivity).
      repeat split. }
  destruct Hre as (img & Hb & Hsh & Hrun).
  rewrite (bind_ok _ _ _ _ _ Hrun).
  rewrite (bind_ok _ _ _ _ _
             (astype_run img float32 (BufU8 xs) w ltac:(rewrite Hb; exact Hbx))).
  cbn [convert].
  erewrite bind_ok; cycle 1.
  { apply imul_run. cbn [base heap set_heap]. apply list_lookup_middle.
    reflexivity. }
  cbn [base heap set_heap]. rewrite insert_app_last, map_map.
  destruct withlabel.
  - unfold ret at 1. cbn [bind].
    erewrite bind_ok; cycle 1.
    { apply astype_run with (b := BufU8 ys). cbn [base heap set_heap].
      apply lookup_app_l_Some. exact Hby. }
    unfold TupleDataset, ret. cbn. rewrite Hsh, length_app, Nat.add_1_r.
    unfold set_heap. cbn. rewrite <- app_assoc. reflexivity.
  - unfold ret. cbn. rewrite Hsh. reflexivity.
Qed.

Lemma extends_refl w : extends w w.
Proof. unfold extends. repeat (split; [reflexivity|]). reflexivity. Qed.

Lemma extends_alloc w bs : extends w (set_heap (heap w ++ bs) w).
Proof.
  unfold extends. repeat (split; [reflexivity|]).
  cbn. apply prefix_app_r. reflexivity.
Qed.

(** Whatever its arguments, the normaliser writes to no buffer that
    existed before the call: the one array it updates in place is the
    copy that [astype] has just made. *)
Lemma preprocess_frame raw withlabel ndim scale w :
  extends w (snd (_preprocess_mnist raw withlabel ndim scale w)).
Proof.
  unfold _preprocess_mnist. rewrite bind_run. unfold getitem.
  destruct (dict_get raw "x") as [a|]; [|apply extends_refl].
  unfold ret at 1. cbv beta iota. rewrite bind_run.
  set (step := if ndim =? 2 then _ else _).
  assert (Hstep : snd (step w) = w).
  { subst step. destruct (ndim =? 2); [apply reshape_pure|].
    destruct (ndim =? 3); [apply reshape_pure|].
    destruct (negb (ndim =? 1)); reflexivity. }
  destruct (step w) as [[img|e] w0]; cbn in Hstep; subst w0;
    [|apply extends_refl].
  rewrite bind_run.
  destruct (heap w !! base img) as [b|] eqn:Hb;
    [|rewrite (astype_dangling _ _ _ Hb); apply extends_refl].
  rewrite (astype_run _ float32 _ _ Hb).
  destruct (convert_float32 b) as [cells Hc]. rewrite Hc.
  rewrite bind_run.
  rewrite (imul_run _ cells); cycle 1.
  { cbn [base heap set_heap]. apply list_lookup_middle. reflexivity. }
  cbn [base heap set_heap]. rewrite insert_app_last.
  destruct withlabel; [|apply (extends_alloc w [_])].
  rewrite bind_run.
  destruct (dict_get raw "y") as [y|]; [|apply (extends_alloc w [_])].
  unfold ret at 1. cbv beta iota. rewrite bind_run.
  match goal with |- context [astype y int32 ?w0] => set (w1 := w0) end.
  destruct (heap w1 !! base y) as [c|] eqn:Hy;
    [|rewrite (astype_dangling _ _ _ Hy); apply (extends_alloc w [_])].
  rewrite (astype_run _ int32 _ _ Hy).
  unfold TupleDataset, ret. subst w1. cbn. unfold extends. cbn.
  repeat (split; [reflexivity|]).
  rewrite <- app_assoc. apply prefix_app_r. reflexivity.
Qed.

Lemma raw_split_extends w w' raw N xs ys :
  extends w w' -> raw_split w raw N xs ys -> raw_split w' raw N xs ys.
Proof.
  intros (_ & _ & _ & [k Hk]) (bx & by_ & Hx & Hy & Hbx & Hby & Hl).
  exists bx, by_. rewrite Hk.
  repeat split; try tauto; apply lookup_app_l_Some; assumption.
Qed.

(** ** Cache hits *)

Lemma restore_split N xs ys w :
  restore [("x", ([N; 784], BufU8 xs)); ("y", ([N], BufU8 ys))] w =
    (Ok [("x", {| base := length (heap w); shape := [N; 784] |});
         ("y", {| base := S (length (heap w)); shape := [N] |})],
     set_heap (heap w ++ [BufU8 xs; BufU8 ys]) w).
Proof.
  unfold restore, bind, alloc, ret. cbn.
  rewrite length_app, Nat.add_1_r, <- app_assoc. reflexivity.
Qed.

Lemma retrieve_cached `{StructModule} name urls N xs ys w :
  cached_split w name N xs ys ->
  _retrieve_mnist name urls w =
    (Ok [("x", {| base := length (heap w); shape := [N; 784] |});
         ("y", {| base := S (length (heap w)); shape := [N] |})],
     set_heap (heap w ++ [BufU8 xs; BufU8 ys]) w).
Proof.
  intros (Hf & _ & _).
  unfold _retrieve_mnist, get_dataset_directory, ret at 1. cbn [bind].
  fold (mnist_path name). rewrite (cached_create_file_hit _ _ _ _ _ Hf).
  unfold numpy_load. rewrite Hf. apply restore_split.
Qed.

Lemma raw_split_loaded N xs ys w :
  Z.of_nat (length xs) = N * 784 -> Z.of_nat (length ys) = N ->
  raw_split (set_heap (heap w ++ [BufU8 xs; BufU8 ys]) w)
    [("x", {| base := length (heap w); shape := [N; 784] |});
     ("y", {| base := S (length (heap w)); shape := [N] |})] N xs ys.
Proof.
  intros Hx Hy. exists (length (heap w)), (S (length (heap w))).
  repeat split; auto; cbn [heap set_heap].
  - apply list_lookup_middle. reflexivity.
  - change (heap w ++ [BufU8 xs; BufU8 ys])
      with (heap w ++ [BufU8 xs] ++ [BufU8 ys]).
    rewrite app_assoc. apply list_lookup_middle. rewrite length_app. cbn. lia.
Qed.

(** ** Values of arrays and datasets *)

Lemma extends_trans w1 w2 w3 : extends w1 w2 -> extends w2 w3 -> extends w1 w3.
Proof.
  intros (F1 & S1 & R1 & P1) (F2 & S2 & R2 & P2). unfold extends.
  rewrite F2, S2, R2. repeat (split; [assumption|]).
  etransitivity; eassumption.
Qed.

Lemma array_value_extends w w' a v :
  extends w w' -> array_value w a = Some v -> array_value w' a = Some v.
Proof.
  intros (_ & _ & _ & [k Hk]). unfold array_value. rewrite Hk.
  destruct (heap w !! base a) as [b|] eqn:Hb; [|discriminate].
  rewrite (lookup_app_l_Some _ _ _ _ Hb). exact id.
Qed.

Lemma dataset_value_extends w w' d v :
  extends w w' -> dataset_value w d = Some v -> dataset_value w' d = Some v.
Proof.
  intros Hext. destruct d as [a|a l]; cbn [dataset_value].
  - destruct (array_value w a) as [x|] eqn:Ha; [|discriminate].
    rewrite (array_value_extends _ _ _ _ Hext Ha). exact id.
  - destruct (array_value w a) as [x|] eqn:Ha; [|discriminate].
    destruct (array_value w l) as [y|] eqn:Hl; [|discriminate].
    rewrite (array_value_extends _ _ _ _ Hext Ha),
            (array_value_extends _ _ _ _ Hext Hl). exact id.
Qed.

Lemma preprocess_value w raw N xs ys withlabel ndim scale :
  raw_split w raw N xs ys ->
  ndim = 1 \/ ndim = 2 \/ ndim = 3 ->
  exists d w',
    _preprocess_mnist raw withlabel ndim scale w = (Ok d, w') /\
    dataset_value w' d = Some (normalized withlabel ndim scale N xs ys) /\
    extends w w'.
Proof.
  intros Hraw Hnd. eexists _, _.
  split; [exact (preprocess_run w raw N xs ys withlabel ndim scale Hraw Hnd)|].
  split; [|destruct withlabel; apply (extends_alloc w)].
  unfold normalized, dataset_value, array_value.
  destruct withlabel; cbn [base shape heap set_heap].
  - rewrite list_lookup_middle by reflexivity.
    change (heap w ++ [BufF32 (map (scale_pixel scale) xs); BufI32 ys])
      with (heap w ++ [BufF32 (map (scale_pixel scale) xs)] ++ [BufI32 ys]).
    rewrite app_assoc, list_lookup_middle by (rewrite length_app; cbn; lia).
    reflexivity.
  - rewrite list_lookup_middle by reflexivity. reflexivity.
Qed.

Lemma cached_split_extends w w' name N xs ys :
  extends w w' -> cached_split w name N xs ys -> cached_split w' name N xs ys.
Proof. intros (F & _) (Hf & Hl). split; [rewrite F; exact Hf | exact Hl]. Qed.

(** A call of [get_mnist] on a machine where both splits are cached. *)
Lemma get_mnist_cached_value `{StructModule} w Ntr xtr ytr Nte xte yte
    withlabel ndim scale :
  cached_split w "train.npz" Ntr xtr ytr ->
  cached_split w "test.npz" Nte xte yte ->
  ndim = 1 \/ ndim = 2 \/ ndim = 3 ->
  exists train test w',
    get_mnist withlabel ndim scale w = (Ok (train, test), w') /\
    dataset_value w' train = Some (normalized withlabel ndim scale Ntr xtr ytr) /\
    dataset_value w' test = Some (normalized withlabel ndim scale Nte xte yte) /\
    extends w w'.
Proof.
  intros Htr Hte Hnd.
  unfold get_mnist, _retrieve_mnist_training, _retrieve_mnist_test.
  pose proof Htr as (_ & Hxtr & Hytr).
  rewrite (bind_ok _ _ _ _ _ (retrieve_cached _ _ _ _ _ _ Htr)).
  destruct (preprocess_value _ _ _ _ _ withlabel ndim scale
              (raw_split_loaded Ntr xtr ytr w Hxtr Hytr) Hnd)
    as (train & w1 & Hrun1 & Hv1 & He1).
  rewrite (bind_ok _ _ _ _ _ Hrun1).
  assert (Hw1 : extends w w1)
    by (eapply extends_trans; [apply (extends_alloc w)|exact He1]).
  pose proof (cached_split_extends _ _ _ _ _ _ Hw1 Hte) as Hte1.
  pose proof Hte1 as (_ & Hxte & Hyte).
  rewrite (bind_ok _ _ _ _ _ (retrieve_cached _ _ _ _ _ _ Hte1)).
  destruct (preprocess_value _ _ _ _ _ withlabel ndim scale
              (raw_split_loaded Nte xte yte w1 Hxte Hyte) Hnd)
    as (test & w2 & Hrun2 & Hv2 & He2).
  rewrite (bind_ok _ _ _ _ _ Hrun2).
  assert (Hw2 : extends w1 w2)
    by (eapply extends_trans; [apply (extends_alloc w1)|exact He2]).
  exists train, test, w2. split; [reflexivity|].
  split; [exact (dataset_value_extends _ _ _ _ Hw2 Hv1)|].
  split; [exact Hv2|]. eapply extends_trans; eassumption.
Qed.

Lemma dataset_value_paired w d v u :
  dataset_value w d = Some (v, Some u) ->
  exists images labels,
    d = Paired images labels /\
    array_value w images = Some v /\ array_value w labels = Some u.
Proof.
  destruct d as [a|a l]; cbn [dataset_value].
  - destruct (array_value w a); discriminate.
  - destruct (array_value w a) as [x|] eqn:Ha; [|discriminate].
    destruct (array_value w l) as [y|] eqn:Hl; [|discriminate].
    intros [= <- <-]. exists a, l. auto.
Qed.

Lemma dataset_value_images w d v :
  dataset_value w d = Some (v, None) ->
  exists images, d = Images images /\ array_value w images = Some v.
Proof.
  destruct d as [a|a l]; cbn [dataset_value].
  - destruct (array_value w a) as [x|] eqn:Ha; [|discriminate].
    intros [= <-]. exists a. auto.
  - destruct (array_value w a); [|discriminate].
    destruct (array_value w l); discriminate.
Qed.

(** ** Signs of rounded results *)

Section Rounding.
Variables prec emax : Z.

Lemma shr_1_nonneg mrs : 0 <= shr_m mrs -> 0 <= shr_m (shr_1 mrs).
Proof.
  destruct mrs as [m r s]. cbn [shr_m].
  destruct m as [|[p|p|]|[p|p|]]; cbn; lia.
Qed.

Lemma iter_shr_1_nonneg p :
  forall mrs, 0 <= shr_m mrs -> 0 <= shr_m (SpecFloat.iter_pos shr_1 p mrs).
Proof.
  induction p as [p IH|p IH|]; intros mrs Hm; cbn [SpecFloat.iter_pos].
  - apply IH, IH, shr_1_nonneg, Hm.
  - apply IH, IH, Hm.
  - apply shr_1_nonneg, Hm.
Qed.

Lemma shr_fexp_nonneg m e l :
  0 <= m -> 0 <= shr_m (fst (shr_fexp prec emax m e l)).
Proof.
  intros Hm. unfold shr_fexp, shr.
  assert (H0 : 0 <= shr_m (shr_record_of_loc m l))
    by (destruct l as [|[]]; exact Hm).
  destruct (_ - e); cbn [fst]; auto using iter_shr_1_nonneg.
Qed.

Lemma round_nearest_even_nonneg m l : 0 <= m -> 0 <= round_nearest_even m l.
Proof.
  intros Hm. unfold round_nearest_even.
  destruct l as [|[]]; try destruct (Z.even m); lia.
Qed.

Lemma binary_round_aux_sign sx mx ex lx :
  0 <= mx -> has_sign sx (binary_round_aux prec emax sx mx ex lx).
Proof.
  intros Hm. unfold binary_round_aux.
  pose proof (shr_fexp_nonneg mx ex lx Hm) as H1.
  destruct (shr_fexp prec emax mx ex lx) as [mrs' e']. cbn [fst] in H1.
  pose proof (shr_fexp_nonneg _ e' loc_Exact
                (round_nearest_even_nonneg _ (loc_of_shr_record mrs') H1)) as H2.
  destruct (shr_fexp prec emax _ e' loc_Exact) as [mrs'' e'']. cbn [fst] in H2.
  destruct (shr_m mrs'') as [|m|m]; [reflexivity| |lia].
  destruct (e'' <=? emax - prec); reflexivity.
Qed.

Lemma binary_round_sign sx mx ex :
  has_sign sx (binary_round prec emax sx mx ex).
Proof.
  unfold binary_round. destruct (shl_align _ _ _) as [mz ez].
  apply binary_round_aux_sign. lia.
Qed.

Lemma SFdiv_sign mx ex my ey :
  has_sign false
    (SFdiv prec emax (S754_finite false mx ex) (S754_finite false my ey)).
Proof.
  unfold SFdiv, SFdiv_core_binary.
  set (s := _ - _ - _). set (m' := match s with Z0 => _ | _ => _ end).
  assert (Hm' : 0 <= m').
  { subst m'. destruct s; try lia. apply Z.shiftl_nonneg. lia. }
  pose proof (Z.div_pos m' (Z.pos my) Hm' ltac:(lia)) as Hq.
  unfold Z.div in Hq. destruct (Z.div_eucl m' (Z.pos my)) as [q r].
  apply binary_round_aux_sign. exact Hq.
Qed.

Lemma SFmul_sign x y :
  has_sign false x -> has_sign false y ->
  is_finite x = true -> is_finite y = true ->
  has_sign false (SFmul prec emax x y).
Proof.
  destruct x as [sx|sx| |sx mx ex], y as [sy|sy| |sy my ey];
    cbn; intros Hx Hy Fx Fy; try discriminate; try contradiction;
    subst; try reflexivity.
  apply binary_round_aux_sign. lia.
Qed.

End Rounding.

Lemma has_sign_nonneg x : has_sign false x -> SFleb (S754_zero false) x = true.
Proof. destruct x as [s|s| |s m e]; cbn; intros H; subst; tauto. Qed.

(** The float32 factor [scale / 255.] of a positive scale is not
    negative. *)
Lemma factor_sign scale :
  SFltb (S754_zero false) scale = true ->
  has_sign false (f32_of_f64 (f64_div scale f64_255)).
Proof.
  destruct scale as [s|s| |s m e]; try discriminate.
  - destruct s; [discriminate|]. intros _. reflexivity.
  - destruct s; [discriminate|]. intros _.
    pose proof (SFdiv_sign 53 1024 m e 8972014882652160 (-45)) as Hd.
    change (S754_finite false 8972014882652160 (-45)) with f64_255 in Hd.
    fold (f64_div (S754_finite false m e) f64_255) in Hd.
    destruct (f64_div _ _) as [s'|s'| |s' m' e'] eqn:E; cbn in Hd |- *; auto.
    subst s'. apply binary_round_sign.
Qed.

Lemma byte_cases (P : Z -> bool) :
  forallb P (seqZ 0 256) = true -> forall v, 0 <= v <= 255 -> P v = true.
Proof.
  intros H v Hv. rewrite forallb_forall in H. apply H.
  apply list_elem_of_In, elem_of_seqZ. lia.
Qed.

Lemma f32_of_byte v :
  0 <= v <= 255 ->
  has_sign false (f32_of_Z v) /\ is_finite (f32_of_Z v) = true.
Proof.
  intros Hv. split.
  - unfold f32_of_Z, binary_normalize. destruct v; try lia; [reflexivity|].
    apply binary_round_sign.
  - revert v Hv. apply byte_cases. vm_compute. reflexivity.
Qed.

Lemma scale_pixel_nonneg scale v :
  SFltb (S754_zero false) scale = true ->
  is_finite (f32_of_f64 (f64_div scale f64_255)) = true ->
  0 <= v <= 255 ->
  SFleb (S754_zero false) (scale_pixel scale v) = true.
Proof.
  intros Hs Hf Hv. apply has_sign_nonneg. unfold scale_pixel, f32_mul.
  destruct (f32_of_byte v Hv). apply SFmul_sign; auto using factor_sign.
Qed.

Lemma scale_pixel_zero scale :
  SFltb (S754_zero false) scale = true ->
  is_finite (f32_of_f64 (f64_div scale f64_255)) = true ->
  scale_pixel scale 0 = S754_zero false.
Proof.
  intros Hs Hf. pose proof (factor_sign scale Hs) as Hk.
  unfold scale_pixel. destruct (f32_of_f64 _) as [s|s| |s m e];
    cbn in Hk, Hf |- *; try discriminate; subst; reflexivity.
Qed.

(** ** Sample inputs *)

Lemma sample_is_raw_split : raw_split sample_world sample_raw 1 sample_pixels [5].
Proof. exists 0%nat, 1%nat. repeat split. Defined.

Lemma sample_pixels_are_bytes : Forall (fun b => 0 <= b <= 255) sample_pixels.
Proof.
  constructor; [lia|]. apply List.Forall_forall. intros b Hb.
  apply repeat_spec in Hb. subst b. lia.
Defined.

Lemma cached_world_train : cached_split cached_world "train.npz" 1 sample_pixels [5].
Proof. repeat split. Defined.

Lemma cached_world_test : cached_split cached_world "test.npz" 1 (repeat 9 784) [2].
Proof. repeat split. Defined.

(** * The claims *)

(** C1.  The parser is meant to skip the magic fields, read the record
    count [N] from both streams and fill an [(N, 784)] and an [(N,)] byte
    tensor.  It does not: on a well-formed pair of one record it raises,
    and it does so for every implementation of [struct.unpack], because
    the count bytes are passed as the format and the tuple that is
    returned is used as a dimension.  Under Python 3 the exception is the
    [struct.error] of the very first count. *)
Theorem parser_rejects_well_formed_pair :
  (forall SM : StructModule,
     is_ok (fst (@_make_npz SM (mnist_path "train.npz")
                   [train_images_url; train_labels_url] one_record_world))
       = false) /\
  fst (_make_npz (mnist_path "train.npz")
         [train_images_url; train_labels_url] one_record_world)
    = Err (StructError "embedded null character").
Proof.
  split.
  - intros SM. apply make_npz_raises.
  - vm_compute. reflexivity.
Qed.

(** C2.  For an image stream that declares 100 records and a label stream
    that declares 99 the parser is meant to fail with its consistency
    error.  It fails with the [struct.error] of the first count instead;
    under Python 3 the comparison of the counts is never reached, for any
    input, so the consistency error is never raised at all. *)
Theorem mismatched_counts_raise_struct_error :
  fst (_make_npz (mnist_path "train.npz")
         [train_images_url; train_labels_url] mismatched_world)
    = Err (StructError "embedded null character") /\
  (forall path urls w,
     is_consistency_error (fst (_make_npz path urls w)) = false).
Proof.
  split.
  - vm_compute. reflexivity.
  - intros path urls w. apply make_npz_quiet.
Qed.

(** C3.  On a cache miss the gate is meant to run the parser once and
    leave its result at the path, so that a later call is a hit.  Since
    the parser always raises, a miss stays a miss: the call fails, no
    file appears at the path, and the next call runs the parser again. *)
Theorem retrieve_never_fills_cache `{StructModule} name x_url y_url w :
  fs w !! mnist_path name = None ->
  download_path x_url <> mnist_path name ->
  download_path y_url <> mnist_path name ->
  let r := _retrieve_mnist name [x_url; y_url] w in
  is_ok (fst r) = false /\
  fs (snd r) !! mnist_path name = None /\
  _retrieve_mnist name [x_url; y_url] (snd r)
    = _make_npz (mnist_path name) [x_url; y_url] (snd r).
Proof.
  intros Hmiss Hx Hy r.
  assert (Hr : r = _make_npz (mnist_path name) [x_url; y_url] w)
    by (apply retrieve_miss; exact Hmiss).
  assert (Hfs : fs (snd r) !! mnist_path name = None).
  { rewrite Hr, make_npz_fs_other by assumption. exact Hmiss. }
  split; [rewrite Hr; apply make_npz_raises|]. split; [exact Hfs|].
  apply retrieve_miss. exact Hfs.
Qed.

Lemma retrieve_never_fills_cache_witness :
  let r := _retrieve_mnist "train.npz" [train_images_url; train_labels_url]
             one_record_world in
  is_ok (fst r) = false /\
  fs (snd r) !! mnist_path "train.npz" = None /\
  _retrieve_mnist "train.npz" [train_images_url; train_labels_url] (snd r)
    = _make_npz (mnist_path "train.npz")
        [train_images_url; train_labels_url] (snd r).
Proof.
  apply (retrieve_never_fills_cache "train.npz" train_images_url
           train_labels_url one_record_world).
  - reflexivity.
  - vm_compute. discriminate.
  - vm_compute. discriminate.
Defined.



(** C5.  For a raw split of [N] records and [ndim] in {1, 2, 3} the
    normaliser returns an image tensor of [N * 784] float32 cells, of
    shape [(N, 784)], [(N, 28, 28)] or [(N, 1, 28, 28)]. *)
Theorem preprocess_shape w raw N xs ys withlabel ndim scale :
  raw_split w raw N xs ys ->
  ndim = 1 \/ ndim = 2 \/ ndim = 3 ->
  exists d w' cells,
    _preprocess_mnist raw withlabel ndim scale w = (Ok d, w') /\
    shape (images_of d) =
      (if ndim =? 1 then [N; 784]
       else if ndim =? 2 then [N; 28; 28]
       else [N; 1; 28; 28]) /\
    size_of (shape (images_of d)) = N * 784 /\
    heap w' !! base (images_of d) = Some (BufF32 cells) /\
    Z.of_nat (length cells) = N * 784.
Proof.
  intros Hraw Hnd.
  pose proof (preprocess_run w raw N xs ys withlabel ndim scale Hraw Hnd) as Hrun.
  destruct Hraw as (bx & by_ & _ & _ & _ & _ & Hlx & _).
  eexists _, _, (map (scale_pixel scale) xs). split; [exact Hrun|].
  assert (Hsh : shape (images_of
     (if withlabel
      then Paired {| base := length (heap w); shape := image_shape ndim N |}
                  {| base := S (length (heap w)); shape := [N] |}
      else Images {| base := length (heap w); shape := image_shape ndim N |}))
     = image_shape ndim N) by (destruct withlabel; reflexivity).
  assert (Hba : base (images_of
     (if withlabel
      then Paired {| base := length (heap w); shape := image_shape ndim N |}
                  {| base := S (length (heap w)); shape := [N] |}
      else Images {| base := length (heap w); shape := image_shape ndim N |}))
     = length (heap w)) by (destruct withlabel; reflexivity).
  rewrite Hsh, Hba. repeat split.
  - destruct Hnd as [-> | [-> | ->]]; reflexivity.
  - destruct Hnd as [-> | [-> | ->]]; cbn; lia.
  - cbn [heap set_heap]. apply list_lookup_middle. reflexivity.
  - rewrite length_map. exact Hlx.
Qed.

Lemma preprocess_shape_witness :
  exists d w' cells,
    _preprocess_mnist sample_raw true 3 f64_one sample_world = (Ok d, w') /\
    shape (images_of d) =
      (if 3 =? 1 then [1; 784]
       else if 3 =? 2 then [1; 28; 28]
       else [1; 1; 28; 28]) /\
    size_of (shape (images_of d)) = 1 * 784 /\
    heap w' !! base (images_of d) = Some (BufF32 cells) /\
    Z.of_nat (length cells) = 1 * 784.
Proof.
  apply (preprocess_shape sample_world sample_raw 1 sample_pixels [5] true 3
           f64_one sample_is_raw_split).
  right. right. reflexivity.
Defined.

(** C6.  For [ndim] outside {1, 2, 3} the normaliser raises
    [ValueError('invalid ndim for MNIST dataset')] at once, and nothing
    has been allocated. *)
Theorem preprocess_invalid_ndim raw a withlabel ndim scale w :
  dict_get raw "x" = Some a ->
  ndim <> 1 -> ndim <> 2 -> ndim <> 3 ->
  _preprocess_mnist raw withlabel ndim scale w
    = (Err (ValueError "invalid ndim for MNIST dataset"), w).
Proof.
  intros Hx H1 H2 H3. unfold _preprocess_mnist, getitem. rewrite Hx.
  unfold ret at 1. cbn [bind].
  apply Z.eqb_neq in H1, H2, H3. rewrite H1, H2, H3. reflexivity.
Qed.

Lemma preprocess_invalid_ndim_witness :
  _preprocess_mnist sample_raw true 4 f64_one sample_world
    = (Err (ValueError "invalid ndim for MNIST dataset"), sample_world).
Proof.
  apply (preprocess_invalid_ndim sample_raw {| base := 0; shape := [1; 784] |}
           true 4 f64_one sample_world); [reflexivity | lia | lia | lia].
Defined.

(** C7.  The scaled pixels do not stay in the interval [[0, scale]] that
    the docstring of [get_mnist] promises, and the byte 255 does not map
    to the scale.  The first cell of the sample split is the byte 255.
    For the scale 0.1 the normaliser maps it to the float32 nearest to
    0.1, which is above the scale.  For the scale 1023.0 it maps it to a
    value below the scale, not to the scale.  For the scale
    511.69219970703125, itself a float32 value, it maps it to a value
    above the scale. *)
Theorem normalize_misses_scale :
  (SFltb (S754_zero false) f64_tenth = true /\
   exists out,
     normalized_cell f64_tenth 0 = Some out /\
     SFltb f64_tenth (f64_of_f32 out) = true) /\
  (SFltb (S754_zero false) f64_1023 = true /\
   exists out,
     normalized_cell f64_1023 0 = Some out /\
     SFltb (f64_of_f32 out) f64_1023 = true) /\
  (SFltb (S754_zero false) f64_fine = true /\
   f64_of_f32 (f32_of_f64 f64_fine) = f64_fine /\
   exists out,
     normalized_cell f64_fine 0 = Some out /\
     SFltb f64_fine (f64_of_f32 out) = true).
Proof.
  split; [|split].
  - split; [vm_compute; reflexivity|].
    eexists. split; [vm_compute; reflexivity | vm_compute; reflexivity].
  - split; [vm_compute; reflexivity|].
    eexists. split; [vm_compute; reflexivity | vm_compute; reflexivity].
  - split; [vm_compute; reflexivity|].
    split; [vm_compute; reflexivity|].
    eexists. split; [vm_compute; reflexivity | vm_compute; reflexivity].
Qed.

(** C8.  On a raw split: with [withlabel] the normaliser returns the
    pair of the image tensor (the pixels of [x], scaled, in the shape
    asked for) and of an int32 tensor holding the labels of [y]; without
    it, it returns that image tensor alone.  The same holds of the
    training and of the test result of [get_mnist] when both splits are
    cached. *)
Theorem normalize_with_label `{StructModule} w raw N xs ys wc Ntr xtr ytr
    Nte xte yte ndim scale :
  raw_split w raw N xs ys ->
  cached_split wc "train.npz" Ntr xtr ytr ->
  cached_split wc "test.npz" Nte xte yte ->
  ndim = 1 \/ ndim = 2 \/ ndim = 3 ->
  (exists images labels w',
     _preprocess_mnist raw true ndim scale w = (Ok (Paired images labels), w') /\
     array_value w' images
       = Some (image_shape ndim N, BufF32 (map (scale_pixel scale) xs)) /\
     array_value w' labels = Some ([N], BufI32 ys)) /\
  (exists images w',
     _preprocess_mnist raw false ndim scale w = (Ok (Images images), w') /\
     array_value w' images
       = Some (image_shape ndim N, BufF32 (map (scale_pixel scale) xs))) /\
  (exists train_images train_labels test_images test_labels w',
     get_mnist true ndim scale wc
       = (Ok (Paired train_images train_labels,
              Paired test_images test_labels), w') /\
     array_value w' train_images
       = Some (image_shape ndim Ntr, BufF32 (map (scale_pixel scale) xtr)) /\
     array_value w' train_labels = Some ([Ntr], BufI32 ytr) /\
     array_value w' test_images
       = Some (image_shape ndim Nte, BufF32 (map (scale_pixel scale) xte)) /\
     array_value w' test_labels = Some ([Nte], BufI32 yte)) /\
  (exists train_images test_images w',
     get_mnist false ndim scale wc
       = (Ok (Images train_images, Images test_images), w') /\
     array_value w' train_images
       = Some (image_shape ndim Ntr, BufF32 (map (scale_pixel scale) xtr)) /\
     array_value w' test_images
       = Some (image_shape ndim Nte, BufF32 (map (scale_pixel scale) xte))).
Proof.
  intros Hraw Htr Hte Hnd. split; [|split; [|split]].
  - destruct (preprocess_value w raw N xs ys true ndim scale Hraw Hnd)
      as (d & w' & Hrun & Hv & _).
    destruct (dataset_value_paired _ _ _ _ Hv) as (a & l & -> & Ha & Hl).
    exists a, l, w'. auto.
  - destruct (preprocess_value w raw N xs ys false ndim scale Hraw Hnd)
      as (d & w' & Hrun & Hv & _).
    destruct (dataset_value_images _ _ _ Hv) as (a & -> & Ha).
    exists a, w'. auto.
  - destruct (get_mnist_cached_value wc Ntr xtr ytr Nte xte yte true ndim
                scale Htr Hte Hnd) as (tr & te & w' & Hrun & Hv1 & Hv2 & _).
    destruct (dataset_value_paired _ _ _ _ Hv1) as (a1 & l1 & -> & Ha1 & Hl1).
    destruct (dataset_value_paired _ _ _ _ Hv2) as (a2 & l2 & -> & Ha2 & Hl2).
    exists a1, l1, a2, l2, w'. auto.
  - destruct (get_mnist_cached_value wc Ntr xtr ytr Nte xte yte false ndim
                scale Htr Hte Hnd) as (tr & te & w' & Hrun & Hv1 & Hv2 & _).
    destruct (dataset_value_images _ _ _ Hv1) as (a1 & -> & Ha1).
    destruct (dataset_value_images _ _ _ Hv2) as (a2 & -> & Ha2).
    exists a1, a2, w'. auto.
Qed.

Lemma normalize_with_label_witness :
  (exists images labels w',
     _preprocess_mnist sample_raw true 2 f64_one sample_world
       = (Ok (Paired images labels), w') /\
     array_value w' images
       = Some (image_shape 2 1,
               BufF32 (map (scale_pixel f64_one) sample_pixels)) /\
     array_value w' labels = Some ([1], BufI32 [5])) /\
  (exists images w',
     _preprocess_mnist sample_raw false 2 f64_one sample_world
       = (Ok (Images images), w') /\
     array_value w' images
       = Some (image_shape 2 1,
               BufF32 (map (scale_pixel f64_one) sample_pixels))) /\
  (exists train_images train_labels test_images test_labels w',
     get_mnist true 2 f64_one cached_world
       = (Ok (Paired train_images train_labels,
              Paired test_images test_labels), w') /\
     array_value w' train_images
       = Some (image_shape 2 1,
               BufF32 (map (scale_pixel f64_one) sample_pixels)) /\
     array_value w' train_labels = Some ([1], BufI32 [5]) /\
     array_value w' test_images
       = Some (image_shape 2 1,
               BufF32 (map (scale_pixel f64_one) (repeat 9 784))) /\
     array_value w' test_labels = Some ([1], BufI32 [2])) /\
  (exists train_images test_images w',
     get_mnist false 2 f64_one cached_world
       = (Ok (Images train_images, Images test_images), w') /\
     array_value w' train_images
       = Some (image_shape 2 1,
               BufF32 (map (scale_pixel f64_one) sample_pixels)) /\
     array_value w' test_images
       = Some (image_shape 2 1,
               BufF32 (map (scale_pixel f64_one) (repeat 9 784)))).
Proof.
  apply (normalize_with_label sample_world sample_raw 1 sample_pixels [5]
           cached_world 1 sample_pixels [5] 1 (repeat 9 784) [2] 2 f64_one
           sample_is_raw_split cached_world_train cached_world_test).
  right. left. reflexivity.
Defined.

(** C9.  The normaliser has no side effects: after the call the raw [x]
    and [y] arrays hold what they held before, no file or stream has
    changed, and every buffer that existed before is intact. *)
Theorem preprocess_no_side_effects w raw N xs ys withlabel ndim scale :
  raw_split w raw N xs ys ->
  let w' := snd (_preprocess_mnist raw withlabel ndim scale w) in
  raw_split w' raw N xs ys /\
  fs w' = fs w /\ streams w' = streams w /\ remote w' = remote w /\
  heap w `prefix_of` heap w'.
Proof.
  intros Hraw w'.
  pose proof (preprocess_frame raw withlabel ndim scale w) as Hext.
  split; [exact (raw_split_extends _ _ _ _ _ _ Hext Hraw) | exact Hext].
Qed.

Lemma preprocess_no_side_effects_witness :
  let w' := snd (_preprocess_mnist sample_raw true 2 f64_tenth sample_world) in
  raw_split w' sample_raw 1 sample_pixels [5] /\
  fs w' = fs sample_world /\ streams w' = streams sample_world /\
  remote w' = remote sample_world /\
  heap sample_world `prefix_of` heap w'.
Proof.
  exact (preprocess_no_side_effects sample_world sample_raw 1 sample_pixels [5]
           true 2 f64_tenth sample_is_raw_split).
Defined.

(** C10.  The label stream is meant to be fetched, parsed and stored in
    the cache entry whatever [withlabel] is.  On a fresh machine it is
    fetched, whatever [withlabel] is, but the call fails and the only
    files on disk afterwards are the two downloads: no cache entry is
    ever written. *)
Theorem labels_fetched_never_stored `{StructModule} withlabel ndim scale w
    fx fy :
  fs w = ∅ ->
  remote w !! train_images_url = Some fx ->
  remote w !! train_labels_url = Some fy ->
  let r := get_mnist withlabel ndim scale w in
  is_ok (fst r) = false /\
  fs (snd r) = <[download_path train_labels_url := fy]>
               (<[download_path train_images_url := fx]> ∅).
Proof.
  intros Hfs Hx Hy r.
  assert (Hmiss : _retrieve_mnist_training w
            = _make_npz (mnist_path "train.npz")
                [train_images_url; train_labels_url] w).
  { apply retrieve_miss. rewrite Hfs. apply lookup_empty. }
  pose proof (make_npz_raises (mnist_path "train.npz")
                [train_images_url; train_labels_url] w) as Hf.
  pose proof (make_npz_fs (mnist_path "train.npz")
                train_images_url train_labels_url w) as Hm.
  subst r. unfold get_mnist. rewrite bind_run, Hmiss.
  destruct (_make_npz _ _ w) as [[raw|e] w']; cbn in Hf; [discriminate|].
  cbn [fst snd is_ok] in *. split; [reflexivity|].
  rewrite Hm. unfold cached_download. rewrite Hfs, lookup_empty, Hx.
  cbn [fs set_fs snd remote].
  rewrite lookup_insert_ne by (vm_compute; discriminate).
  rewrite lookup_empty, Hy. reflexivity.
Qed.

Lemma labels_fetched_never_stored_witness :
  let r := get_mnist false 1 f64_one one_record_world in
  is_ok (fst r) = false /\
  fs (snd r) =
    <[download_path train_labels_url := GzFile (idx1_labels 1 [3])]>
    (<[download_path train_images_url
         := GzFile (idx3_images 1 (repeat 7 784))]> ∅).
Proof.
  apply (labels_fetched_never_stored false 1 f64_one one_record_world);
    reflexivity.
Defined.

(** * Further properties *)

(** ** The normaliser on arbitrary dictionaries *)

Lemma shape_step_run ndim a w :
  (if ndim =? 2 then reshape a [-1; 28; 28]
   else if ndim =? 3 then reshape a [-1; 1; 28; 28]
   else if negb (ndim =? 1)
        then raise (ValueError "invalid ndim for MNIST dataset")
   else ret a) w =
  match new_shape ndim (shape a) with
  | Ok sh => (Ok {| base := base a; shape := sh |}, w)
  | Err e => (Err e, w)
  end.
Proof.
  unfold new_shape, reshape, bind, lift, raise, ret.
  destruct (ndim =? 2); [destruct (fix_unknown_dimension _ _); reflexivity|].
  destruct (ndim =? 3); [destruct (fix_unknown_dimension _ _); reflexivity|].
  destruct (negb (ndim =? 1)); [reflexivity|]. destruct a; reflexivity.
Qed.

(** The normaliser, step by step, on any dictionary. *)
Lemma preprocess_general raw withlabel ndim scale w :
  _preprocess_mnist raw withlabel ndim scale w =
    match dict_get raw "x" with
    | None => (Err (KeyError "x"), w)
    | Some a =>
        match new_shape ndim (shape a) with
        | Err e => (Err e, w)
        | Ok sh =>
            match heap w !! base a with
            | None => (Err (ValueError "dangling array"), w)
            | Some b =>
                let cells := match convert float32 b with
                             | BufF32 cells => cells
                             | _ => []
                             end in
                let img := {| base := length (heap w); shape := sh |} in
                let w1 := set_heap (heap w ++ [BufF32 (scale_cells scale cells)]) w in
                if withlabel then
                  match dict_get raw "y" with
                  | None => (Err (KeyError "y"), w1)
                  | Some y =>
                      match heap w1 !! base y with
                      | None => (Err (ValueError "dangling array"), w1)
                      | Some c =>
                          (Ok (Paired img {| base := S (length (heap w));
                                             shape := shape y |}),
                           set_heap (heap w1 ++ [convert int32 c]) w1)
                      end
                  end
                else (Ok (Images img), w1)
            end
        end
    end.
Proof.
  unfold _preprocess_mnist. rewrite bind_run. unfold getitem.
  destruct (dict_get raw "x") as [a|]; [|reflexivity].
  unfold ret at 1. cbv beta iota. rewrite bind_run, shape_step_run.
  destruct (new_shape ndim (shape a)) as [sh|e]; [|reflexivity].
  rewrite bind_run. cbn [base].
  destruct (heap w !! base a) as [b|] eqn:Hb;
    [|rewrite (astype_dangling {| base := base a; shape := sh |} _ _ Hb);
      reflexivity].
  rewrite (astype_run {| base := base a; shape := sh |} float32 _ _ Hb).
  destruct (convert_float32 b) as [cells Hc]. rewrite Hc. cbv zeta.
  rewrite bind_run.
  rewrite (imul_run _ cells); cycle 1.
  { cbn [base heap set_heap]. apply list_lookup_middle. reflexivity. }
  cbn [base heap set_heap shape]. rewrite insert_app_last.
  fold (scale_cells scale cells).
  destruct withlabel; [|reflexivity].
  rewrite bind_run.
  destruct (dict_get raw "y") as [y|]; [|reflexivity].
  unfold ret at 1. cbv beta iota. rewrite bind_run.
  match goal with |- context [astype y int32 ?w0] => set (w1 := w0) end.
  destruct (heap w1 !! base y) as [c|] eqn:Hy.
  - rewrite (astype_run _ int32 _ _ Hy). subst w1.
    unfold TupleDataset, ret. cbn [heap set_heap].
    rewrite length_app, Nat.add_1_r. cbn [heap set_heap] in Hy. rewrite Hy.
    reflexivity.
  - rewrite (astype_dangling _ _ _ Hy). subst w1.
    cbn [heap set_heap] in Hy |- *. rewrite Hy. reflexivity.
Qed.

Lemma new_shape_784 total (tail : list Z) :
  tail = [28; 28] \/ tail = [1; 28; 28] ->
  fix_unknown_dimension total (-1 :: tail) =
    if total mod 784 =? 0 then Ok (total / 784 :: tail)
    else Err (ValueError "cannot reshape array").
Proof.
  intros [-> | ->]; unfold fix_unknown_dimension;
    cbn [List.filter Z.ltb Z.leb Z.compare size_of fold_right];
    change (1 * (28 * (28 * 1))) with 784; change (28 * (28 * 1)) with 784;
    cbn [Z.eqb orb]; destruct (total mod 784 =? 0); reflexivity.
Qed.

(** X1.  The labels are looked up only when they are asked for.  On a
    dictionary with [x] and without [y], with [ndim = 1]: when [withlabel]
    is false the normaliser returns the image array, a new array of the
    shape of [x] whose cells are the cells of [x] converted to float32
    and multiplied by [float32(scale / 255.)]; when [withlabel] is true
    it raises [KeyError('y')], and it does so after that same array has
    been made.  In both cases the store afterwards is the store before
    with that one buffer added. *)
Theorem preprocess_labels_optional raw a b cells ndim scale w :
  dict_get raw "x" = Some a ->
  dict_get raw "y" = None ->
  heap w !! base a = Some b ->
  convert float32 b = BufF32 cells ->
  ndim = 1 ->
  let images := {| base := length (heap w); shape := shape a |} in
  let w1 := set_heap (heap w ++ [BufF32 (scale_cells scale cells)]) w in
  _preprocess_mnist raw false ndim scale w = (Ok (Images images), w1) /\
  array_value w1 images = Some (shape a, BufF32 (scale_cells scale cells)) /\
  _preprocess_mnist raw true ndim scale w = (Err (KeyError "y"), w1).
Proof.
  intros Hx Hy Hb Hc -> images w1. subst images w1.
  rewrite !preprocess_general, Hx, Hy, Hb, Hc.
  unfold new_shape, array_value. cbn [Z.eqb negb base shape heap set_heap].
  rewrite list_lookup_middle by reflexivity. auto.
Qed.

Lemma preprocess_labels_optional_witness :
  let images := {| base := 2; shape := [1; 784] |} in
  let cells := scale_cells f64_one (map f32_of_Z sample_pixels) in
  let w1 := set_heap (heap sample_world ++ [BufF32 cells]) sample_world in
  _preprocess_mnist unlabelled_raw false 1 f64_one sample_world
    = (Ok (Images images), w1) /\
  array_value w1 images = Some ([1; 784], BufF32 cells) /\
  _preprocess_mnist unlabelled_raw true 1 f64_one sample_world
    = (Err (KeyError "y"), w1).
Proof.
  apply (preprocess_labels_optional unlabelled_raw
           {| base := 0; shape := [1; 784] |} (BufU8 sample_pixels)
           (map f32_of_Z sample_pixels) 1 f64_one sample_world); reflexivity.
Defined.

(** X2.  A dictionary without [x] is rejected with [KeyError('x')]
    before [ndim] is looked at, valid or not, and before anything is
    allocated. *)
Theorem preprocess_missing_images raw withlabel ndim scale w :
  dict_get raw "x" = None ->
  _preprocess_mnist raw withlabel ndim scale w = (Err (KeyError "x"), w).
Proof. intros Hx. rewrite preprocess_general, Hx. reflexivity. Qed.

Lemma preprocess_missing_images_witness :
  _preprocess_mnist imageless_raw true 7 f64_one sample_world
    = (Err (KeyError "x"), sample_world).
Proof.
  apply (preprocess_missing_images imageless_raw true 7 f64_one sample_world).
  reflexivity.
Defined.

(** X3.  With [ndim] 2 or 3, an image array whose number of cells is not
    a multiple of 784 is rejected by the reshape with a [ValueError], and
    nothing has been allocated. *)
Theorem preprocess_rejects_ragged raw a withlabel ndim scale w :
  dict_get raw "x" = Some a ->
  ndim = 2 \/ ndim = 3 ->
  size_of (shape a) mod 784 <> 0 ->
  _preprocess_mnist raw withlabel ndim scale w
    = (Err (ValueError "cannot reshape array"), w).
Proof.
  intros Hx Hnd Hs. rewrite preprocess_general, Hx.
  apply Z.eqb_neq in Hs. unfold new_shape.
  destruct Hnd as [-> | ->]; cbn [Z.eqb Pos.eqb];
    rewrite new_shape_784 by auto; rewrite Hs; reflexivity.
Qed.

Lemma preprocess_rejects_ragged_witness :
  _preprocess_mnist ragged_raw false 2 f64_one sample_world
    = (Err (ValueError "cannot reshape array"), sample_world).
Proof.
  apply (preprocess_rejects_ragged ragged_raw {| base := 1; shape := [1] |}
           false 2 f64_one sample_world).
  - reflexivity.
  - left. reflexivity.
  - discriminate.
Defined.

(** X4.  The shape of [x] is not checked against [(N, 784)].  With
    [ndim] 1 any array is accepted and keeps its shape; with [ndim] 2 or
    3 any array whose number of cells is a multiple of 784 is accepted
    and regrouped into 28 x 28 images.  In both cases the cells are
    converted to float32 and scaled. *)
Theorem preprocess_any_shape raw a b ndim scale w :
  dict_get raw "x" = Some a ->
  heap w !! base a = Some b ->
  ndim = 1 \/ ((ndim = 2 \/ ndim = 3) /\ size_of (shape a) mod 784 = 0) ->
  exists d w' cells,
    _preprocess_mnist raw false ndim scale w = (Ok d, w') /\
    shape (images_of d) =
      (if ndim =? 1 then shape a
       else if ndim =? 2 then [size_of (shape a) / 784; 28; 28]
       else [size_of (shape a) / 784; 1; 28; 28]) /\
    convert float32 b = BufF32 cells /\
    heap w' !! base (images_of d) = Some (BufF32 (scale_cells scale cells)).
Proof.
  intros Hx Hb Hnd. destruct (convert_float32 b) as [cells Hc].
  rewrite preprocess_general, Hx, Hb, Hc.
  assert (Hsh : new_shape ndim (shape a) =
    Ok (if ndim =? 1 then shape a
        else if ndim =? 2 then [size_of (shape a) / 784; 28; 28]
        else [size_of (shape a) / 784; 1; 28; 28])).
  { unfold new_shape.
    destruct Hnd as [-> | [[-> | ->] Hs]]; cbn [Z.eqb Pos.eqb negb];
      [reflexivity| |]; rewrite new_shape_784 by auto;
      apply Z.eqb_eq in Hs; rewrite Hs; reflexivity. }
  rewrite Hsh. cbv zeta. eexists _, _, cells.
  split; [reflexivity|]. split; [reflexivity|]. split; [reflexivity|].
  cbn [images_of base heap set_heap]. apply list_lookup_middle. reflexivity.
Qed.

Lemma preprocess_any_shape_witness :
  exists d w' cells,
    _preprocess_mnist square_raw false 3 f64_one sample_world = (Ok d, w') /\
    shape (images_of d) =
      (if 3 =? 1 then shape {| base := 0; shape := [28; 28] |}
       else if 3 =? 2
            then [size_of (shape {| base := 0; shape := [28; 28] |}) / 784;
                  28; 28]
       else [size_of (shape {| base := 0; shape := [28; 28] |}) / 784;
             1; 28; 28]) /\
    convert float32 (BufU8 sample_pixels) = BufF32 cells /\
    heap w' !! base (images_of d) = Some (BufF32 (scale_cells f64_one cells)).
Proof.
  apply (preprocess_any_shape square_raw {| base := 0; shape := [28; 28] |}
           (BufU8 sample_pixels) 3 f64_one sample_world).
  - reflexivity.
  - reflexivity.
  - right. split; [right|]; reflexivity.
Defined.

(** ** The values that [get_mnist] returns *)

(** X5.  When both splits are cached, [get_mnist] returns, for each
    split, the cached pixels in their order, each scaled to float32, in
    the shape asked for, and with [withlabel] the cached labels as int32
    at the same indices. *)
Theorem get_mnist_returns_cached_data `{StructModule} w Ntr xtr ytr Nte xte yte
    withlabel ndim scale :
  cached_split w "train.npz" Ntr xtr ytr ->
  cached_split w "test.npz" Nte xte yte ->
  ndim = 1 \/ ndim = 2 \/ ndim = 3 ->
  exists train test w',
    get_mnist withlabel ndim scale w = (Ok (train, test), w') /\
    dataset_value w' train =
      Some ((image_shape ndim Ntr, BufF32 (map (scale_pixel scale) xtr)),
            if withlabel then Some ([Ntr], BufI32 ytr) else None) /\
    dataset_value w' test =
      Some ((image_shape ndim Nte, BufF32 (map (scale_pixel scale) xte)),
            if withlabel then Some ([Nte], BufI32 yte) else None).
Proof.
  intros Htr Hte Hnd.
  destruct (get_mnist_cached_value w Ntr xtr ytr Nte xte yte withlabel ndim
              scale Htr Hte Hnd) as (train & test & w' & Hrun & Hv1 & Hv2 & _).
  exists train, test, w'. auto.
Qed.

Lemma get_mnist_returns_cached_data_witness :
  exists train test w',
    get_mnist true 2 f64_one cached_world = (Ok (train, test), w') /\
    dataset_value w' train =
      Some ((image_shape 2 1, BufF32 (map (scale_pixel f64_one) sample_pixels)),
            if true then Some ([1], BufI32 [5]) else None) /\
    dataset_value w' test =
      Some ((image_shape 2 1, BufF32 (map (scale_pixel f64_one) (repeat 9 784))),
            if true then Some ([1], BufI32 [2]) else None).
Proof.
  apply (get_mnist_returns_cached_data cached_world 1 sample_pixels [5]
           1 (repeat 9 784) [2] true 2 f64_one
           cached_world_train cached_world_test).
  right. left. reflexivity.
Defined.

(** X6.  When both splits are cached, a second call of [get_mnist]
    succeeds as the first did and returns equal data, and the data of
    the first call is still intact after it. *)
Theorem get_mnist_repeatable `{StructModule} w Ntr xtr ytr Nte xte yte
    withlabel ndim scale :
  cached_split w "train.npz" Ntr xtr ytr ->
  cached_split w "test.npz" Nte xte yte ->
  ndim = 1 \/ ndim = 2 \/ ndim = 3 ->
  exists train test w1 train' test' w2,
    get_mnist withlabel ndim scale w = (Ok (train, test), w1) /\
    get_mnist withlabel ndim scale w1 = (Ok (train', test'), w2) /\
    dataset_value w2 train' = dataset_value w1 train /\
    dataset_value w2 test' = dataset_value w1 test /\
    dataset_value w2 train = dataset_value w1 train /\
    dataset_value w2 test = dataset_value w1 test /\
    is_Some (dataset_value w1 train) /\ is_Some (dataset_value w1 test).
Proof.
  intros Htr Hte Hnd.
  destruct (get_mnist_cached_value w Ntr xtr ytr Nte xte yte withlabel ndim
              scale Htr Hte Hnd) as (train & test & w1 & Hrun & Hv1 & Hv2 & He).
  destruct (get_mnist_cached_value w1 Ntr xtr ytr Nte xte yte withlabel ndim
              scale (cached_split_extends _ _ _ _ _ _ He Htr)
              (cached_split_extends _ _ _ _ _ _ He Hte) Hnd)
    as (train' & test' & w2 & Hrun' & Hv1' & Hv2' & He').
  exists train, test, w1, train', test', w2.
  rewrite Hv1', Hv2', Hv1, Hv2,
    (dataset_value_extends _ _ _ _ He' Hv1),
    (dataset_value_extends _ _ _ _ He' Hv2).
  repeat split; eauto.
Qed.

Lemma get_mnist_repeatable_witness :
  exists train test w1 train' test' w2,
    get_mnist false 1 f64_tenth cached_world = (Ok (train, test), w1) /\
    get_mnist false 1 f64_tenth w1 = (Ok (train', test'), w2) /\
    dataset_value w2 train' = dataset_value w1 train /\
    dataset_value w2 test' = dataset_value w1 test /\
    dataset_value w2 train = dataset_value w1 train /\
    dataset_value w2 test = dataset_value w1 test /\
    is_Some (dataset_value w1 train) /\ is_Some (dataset_value w1 test).
Proof.
  apply (get_mnist_repeatable cached_world 1 sample_pixels [5]
           1 (repeat 9 784) [2] false 1 f64_tenth
           cached_world_train cached_world_test).
  left. reflexivity.
Defined.

(** ** What [get_mnist] does to the machine *)

Lemma restore_extends saved : forall w, extends w (snd (restore saved w)).
Proof.
  induction saved as [|[k [sh b]] rest IH]; intros w; cbn [restore].
  - apply extends_refl.
  - rewrite bind_run. unfold alloc at 1. rewrite bind_run.
    pose proof (IH (set_heap (heap w ++ [b]) w)) as Hr.
    destruct (restore rest _) as [[arrays|e] w1]; cbn [snd] in *;
      (eapply extends_trans; [apply (extends_alloc w)|exact Hr]).
Qed.

Lemma numpy_load_extends path w : extends w (snd (numpy_load path w)).
Proof.
  unfold numpy_load. destruct (fs w !! path) as [[c|saved]|];
    try apply extends_refl. apply restore_extends.
Qed.

Section Hits.
Context `{StructModule}.

Lemma retrieve_hit_extends name urls w :
  is_Some (fs w !! mnist_path name) ->
  extends w (snd (_retrieve_mnist name urls w)).
Proof.
  intros [f Hf]. unfold _retrieve_mnist, get_dataset_directory, ret at 1.
  cbn [bind]. fold (mnist_path name).
  rewrite (cached_create_file_hit _ _ _ _ _ Hf). apply numpy_load_extends.
Qed.

Lemma retrieve_miss_fails name urls w :
  fs w !! mnist_path name = None ->
  is_ok (fst (_retrieve_mnist name urls w)) = false.
Proof.
  intros Hmiss. rewrite (retrieve_miss _ _ _ Hmiss). apply make_npz_raises.
Qed.

(** X7.  When a file exists at both cache paths, [get_mnist] neither
    downloads nor writes nor opens a stream, whatever the files hold and
    whether or not the call succeeds: the disk, the streams and the
    network are as before and no earlier buffer is changed. *)
Theorem get_mnist_hit_leaves_disk withlabel ndim scale w :
  is_Some (fs w !! mnist_path "train.npz") ->
  is_Some (fs w !! mnist_path "test.npz") ->
  let w' := snd (get_mnist withlabel ndim scale w) in
  fs w' = fs w /\ streams w' = streams w /\ remote w' = remote w /\
  heap w `prefix_of` heap w'.
Proof.
  intros Htr Hte w'. subst w'. unfold get_mnist. rewrite bind_run.
  pose proof (retrieve_hit_extends "train.npz"
    ["http://yann.lecun.com/exdb/mnist/train-images-idx3-ubyte.gz";
     "http://yann.lecun.com/exdb/mnist/train-labels-idx1-ubyte.gz"] w Htr) as H1.
  fold _retrieve_mnist_training in H1.
  destruct (_retrieve_mnist_training w) as [[train_raw|e] w1]; cbn [snd] in *;
    [|exact H1].
  rewrite bind_run.
  pose proof (preprocess_frame train_raw withlabel ndim scale w1) as H2.
  destruct (_preprocess_mnist train_raw withlabel ndim scale w1)
    as [[train|e] w2]; cbn [snd] in *;
    [|exact (extends_trans _ _ _ H1 H2)].
  pose proof (extends_trans _ _ _ H1 H2) as H12.
  rewrite bind_run.
  assert (Hte2 : is_Some (fs w2 !! mnist_path "test.npz"))
    by (destruct H12 as (-> & _); exact Hte).
  pose proof (retrieve_hit_extends "test.npz"
    ["http://yann.lecun.com/exdb/mnist/t10k-images-idx3-ubyte.gz";
     "http://yann.lecun.com/exdb/mnist/t10k-labels-idx1-ubyte.gz"] w2 Hte2) as H3.
  fold _retrieve_mnist_test in H3.
  destruct (_retrieve_mnist_test w2) as [[test_raw|e] w3]; cbn [snd] in *;
    [|exact (extends_trans _ _ _ H12 H3)].
  pose proof (extends_trans _ _ _ H12 H3) as H123.
  rewrite bind_run.
  pose proof (preprocess_frame test_raw withlabel ndim scale w3) as H4.
  destruct (_preprocess_mnist test_raw withlabel ndim scale w3)
    as [[test|e] w4]; cbn [snd] in *; exact (extends_trans _ _ _ H123 H4).
Qed.

(** X8.  [get_mnist] returns only from a machine on which both cache
    files were already present: a missing one is never created. *)
Theorem get_mnist_needs_both_caches withlabel ndim scale w :
  is_ok (fst (get_mnist withlabel ndim scale w)) = true ->
  is_Some (fs w !! mnist_path "train.npz") /\
  is_Some (fs w !! mnist_path "test.npz").
Proof.
  unfold get_mnist. rewrite bind_run. intros Hrun.
  destruct (fs w !! mnist_path "train.npz") as [ftr|] eqn:Htr; cycle 1.
  { pose proof (retrieve_miss_fails "train.npz"
      ["http://yann.lecun.com/exdb/mnist/train-images-idx3-ubyte.gz";
       "http://yann.lecun.com/exdb/mnist/train-labels-idx1-ubyte.gz"] w Htr) as Hf.
    fold _retrieve_mnist_training in Hf.
    destruct (_retrieve_mnist_training w) as [[?|?] ?]; discriminate. }
  split; [eauto|].
  pose proof (retrieve_hit_extends "train.npz"
    ["http://yann.lecun.com/exdb/mnist/train-images-idx3-ubyte.gz";
     "http://yann.lecun.com/exdb/mnist/train-labels-idx1-ubyte.gz"] w
    ltac:(rewrite Htr; eauto)) as H1.
  fold _retrieve_mnist_training in H1.
  destruct (_retrieve_mnist_training w) as [[train_raw|e] w1]; cbn [snd] in *;
    [|discriminate].
  rewrite bind_run in Hrun.
  pose proof (preprocess_frame train_raw withlabel ndim scale w1) as H2.
  destruct (_preprocess_mnist train_raw withlabel ndim scale w1)
    as [[train|e] w2]; cbn [snd] in *; [|discriminate].
  rewrite bind_run in Hrun.
  destruct (extends_trans _ _ _ H1 H2) as (Hfs & _).
  destruct (fs w !! mnist_path "test.npz") as [fte|] eqn:Hte; [eauto|].
  pose proof (retrieve_miss_fails "test.npz"
    ["http://yann.lecun.com/exdb/mnist/t10k-images-idx3-ubyte.gz";
     "http://yann.lecun.com/exdb/mnist/t10k-labels-idx1-ubyte.gz"] w2
    ltac:(rewrite Hfs; exact Hte)) as Hf.
  fold _retrieve_mnist_test in Hf.
  destruct (_retrieve_mnist_test w2) as [[?|?] ?]; discriminate.
Qed.

(** X9.  An invalid [ndim] is reported once the training split has been
    retrieved and before the test split is looked for.  With the training
    split cached, whatever is or is not at the path of the test split,
    [get_mnist] raises the [ValueError] of the normaliser, and the disk,
    the streams and the network are as before: nothing was downloaded,
    opened or written for the test split. *)
Theorem invalid_ndim_found_after_loading w N xs ys withlabel ndim scale :
  cached_split w "train.npz" N xs ys ->
  ndim <> 1 -> ndim <> 2 -> ndim <> 3 ->
  fst (get_mnist withlabel ndim scale w)
    = Err (ValueError "invalid ndim for MNIST dataset") /\
  fs (snd (get_mnist withlabel ndim scale w)) = fs w /\
  streams (snd (get_mnist withlabel ndim scale w)) = streams w /\
  remote (snd (get_mnist withlabel ndim scale w)) = remote w.
Proof.
  intros Htr H1 H2 H3. unfold get_mnist, _retrieve_mnist_training.
  rewrite (bind_ok _ _ _ _ _ (retrieve_cached _ _ _ _ _ _ Htr)).
  rewrite bind_run, preprocess_general. cbn [dict_get String.eqb Ascii.eqb Bool.eqb shape].
  unfold new_shape. apply Z.eqb_neq in H1, H2, H3. rewrite H1, H2, H3.
  cbn. auto.
Qed.

End Hits.

Lemma cached_world_has_train : is_Some (fs cached_world !! mnist_path "train.npz").
Proof. eexists. reflexivity. Defined.

Lemma cached_world_has_test : is_Some (fs cached_world !! mnist_path "test.npz").
Proof. eexists. reflexivity. Defined.

Lemma get_mnist_hit_leaves_disk_witness :
  let w' := snd (get_mnist true 5 f64_one cached_world) in
  fs w' = fs cached_world /\ streams w' = streams cached_world /\
  remote w' = remote cached_world /\
  heap cached_world `prefix_of` heap w'.
Proof.
  exact (get_mnist_hit_leaves_disk true 5 f64_one cached_world
           cached_world_has_train cached_world_has_test).
Defined.

Lemma get_mnist_needs_both_caches_witness :
  is_Some (fs cached_world !! mnist_path "train.npz") /\
  is_Some (fs cached_world !! mnist_path "test.npz").
Proof.
  apply (get_mnist_needs_both_caches false 1 f64_one cached_world).
  vm_compute. reflexivity.
Defined.

Lemma train_only_world_train :
  cached_split train_only_world "train.npz" 1 sample_pixels [5].
Proof. repeat split. Defined.

Lemma invalid_ndim_found_after_loading_witness :
  fs train_only_world !! mnist_path "test.npz" = None /\
  fst (get_mnist true 0 f64_one train_only_world)
    = Err (ValueError "invalid ndim for MNIST dataset") /\
  fs (snd (get_mnist true 0 f64_one train_only_world)) = fs train_only_world /\
  streams (snd (get_mnist true 0 f64_one train_only_world))
    = streams train_only_world /\
  remote (snd (get_mnist true 0 f64_one train_only_world))
    = remote train_only_world.
Proof.
  split; [reflexivity|].
  apply (invalid_ndim_found_after_loading train_only_world 1 sample_pixels [5]
           true 0 f64_one train_only_world_train); lia.
Defined.

(** ** What a run of the parser leaves behind *)







Section Cleanup.
Context `{StructModule}.









End Cleanup.

(** ** Scales that are not numbers *)

Lemma scale_pixel_infinite v :
  0 <= v <= 255 ->
  scale_pixel (S754_infinity false) v =
    if v =? 0 then S754_nan else S754_infinity false.
Proof.
  intros Hv.
  assert (H : (fun v => match scale_pixel (S754_infinity false) v,
                              (if v =? 0 then S754_nan else S754_infinity false)
                        with
                        | S754_nan, S754_nan => true
                        | S754_infinity false, S754_infinity false => true
                        | _, _ => false
                        end) v = true).
  { revert v Hv. apply byte_cases. vm_compute. reflexivity. }
  cbv beta in H.
  destruct (scale_pixel _ v) as [| [] | |], (v =? 0); try discriminate;
    reflexivity.
Qed.

(** X11.  The scale is not checked.  For the scale +infinity the
    normaliser succeeds, and every zero byte becomes NaN while every
    other byte becomes +infinity. *)
Theorem normalize_infinite_scale w raw N xs ys withlabel ndim :
  raw_split w raw N xs ys ->
  ndim = 1 \/ ndim = 2 \/ ndim = 3 ->
  Forall (fun b => 0 <= b <= 255) xs ->
  exists d w',
    _preprocess_mnist raw withlabel ndim (S754_infinity false) w = (Ok d, w') /\
    heap w' !! base (images_of d) =
      Some (BufF32 (map (fun v => if v =? 0 then S754_nan
                                  else S754_infinity false) xs)).
Proof.
  intros Hraw Hnd Hxs. eexists _, _.
  split; [exact (preprocess_run _ _ _ _ _ _ _ _ Hraw Hnd)|].
  cbn [heap set_heap].
  replace (base (images_of _)) with (length (heap w))
    by (destruct withlabel; reflexivity).
  rewrite list_lookup_middle by reflexivity. do 2 f_equal.
  apply map_ext_Forall. eapply Forall_impl; [exact Hxs|].
  intros v Hv. apply scale_pixel_infinite. exact Hv.
Qed.

Lemma normalize_infinite_scale_witness :
  exists d w',
    _preprocess_mnist sample_raw true 1 (S754_infinity false) sample_world
      = (Ok d, w') /\
    heap w' !! base (images_of d) =
      Some (BufF32 (map (fun v => if v =? 0 then S754_nan
                                  else S754_infinity false) sample_pixels)).
Proof.
  apply (normalize_infinite_scale sample_world sample_raw 1 sample_pixels [5]
           true 1 sample_is_raw_split).
  - left. reflexivity.
  - exact sample_pixels_are_bytes.
Defined.

(** ** Scales that are numbers *)

(** X12.  What the scaling does guarantee.  On a raw split of bytes, for
    a scale above zero whose float32 factor [float32(scale / 255.)] is
    finite, the normaliser succeeds and the cells of its images are, in
    order, the float32 products of each byte of [x] with that factor; no
    cell is negative or NaN, and the byte 0 gives exactly +0.  For the
    default scale 1.0 every byte gives a value in [0, 1], the byte 255
    exactly 1.0 and the byte 0 exactly 0.  Apart from the default, nothing is
    claimed on how a cell compares with the scale. *)
Theorem normalize_scaling w raw N xs ys withlabel ndim scale v :
  raw_split w raw N xs ys ->
  ndim = 1 \/ ndim = 2 \/ ndim = 3 ->
  Forall (fun b => 0 <= b <= 255) xs ->
  SFltb (S754_zero false) scale = true ->
  is_finite (f32_of_f64 (f64_div scale f64_255)) = true ->
  0 <= v <= 255 ->
  (exists d w',
     _preprocess_mnist raw withlabel ndim scale w = (Ok d, w') /\
     heap w' !! base (images_of d)
       = Some (BufF32 (map (scale_pixel scale) xs))) /\
  Forall (fun c => SFleb (S754_zero false) c = true)
         (map (scale_pixel scale) xs) /\
  scale_pixel scale 0 = S754_zero false /\
  SFleb (S754_zero false) (scale_pixel f64_one v) = true /\
  SFleb (f64_of_f32 (scale_pixel f64_one v)) f64_one = true /\
  f64_of_f32 (scale_pixel f64_one 255) = f64_one /\
  scale_pixel f64_one 0 = S754_zero false.
Proof.
  intros Hraw Hnd Hxs Hs Hf Hv. split; [|split; [|split; [|split; [|split]]]].
  - eexists _, _. split; [exact (preprocess_run _ _ _ _ _ _ _ _ Hraw Hnd)|].
    cbn [heap set_heap].
    replace (base (images_of _)) with (length (heap w))
      by (destruct withlabel; reflexivity).
    apply list_lookup_middle. reflexivity.
  - apply Forall_map. eapply Forall_impl; [exact Hxs|].
    intros b Hb. apply scale_pixel_nonneg; assumption.
  - apply scale_pixel_zero; assumption.
  - revert v Hv. apply byte_cases. vm_compute. reflexivity.
  - revert v Hv. apply byte_cases. vm_compute. reflexivity.
  - vm_compute. auto.
Qed.

Lemma normalize_scaling_witness :
  (exists d w',
     _preprocess_mnist sample_raw false 2 f64_tenth sample_world = (Ok d, w') /\
     heap w' !! base (images_of d)
       = Some (BufF32 (map (scale_pixel f64_tenth) sample_pixels))) /\
  Forall (fun c => SFleb (S754_zero false) c = true)
         (map (scale_pixel f64_tenth) sample_pixels) /\
  scale_pixel f64_tenth 0 = S754_zero false /\
  SFleb (S754_zero false) (scale_pixel f64_one 128) = true /\
  SFleb (f64_of_f32 (scale_pixel f64_one 128)) f64_one = true /\
  f64_of_f32 (scale_pixel f64_one 255) = f64_one /\
  scale_pixel f64_one 0 = S754_zero false.
Proof.
  apply (normalize_scaling sample_world sample_raw 1 sample_pixels [5] false 2
           f64_tenth 128 sample_is_raw_split).
  - right. left. reflexivity.
  - exact sample_pixels_are_bytes.
  - reflexivity.
  - reflexivity.
  - lia.
Defined.
